(** * ATS Resume Converter: prompt construction and response extraction

    A shallow embedding of [ats_resume_converter.py]: the instruction
    template [PROMPT_DOCSTRING], [build_prompt] with the fragment of
    [str.format] the template uses, the three access paths of
    [call_openai_chat], and the control flow of [main].

    Python strings are embedded as [string] (the UTF-8 bytes of the text).
    The characters the program inspects (braces, the space, the ASCII
    letters) are single bytes that never occur inside a multi-byte
    sequence, so [str.replace] and the scan of [str.format] act on the
    bytes as they act on the code points.  [str.lower] is embedded on the
    ASCII range only: bytes outside it are left alone, so statements about
    [str_lower] speak about names whose cased letters are ASCII.  Where a
    statement is about the lowering of every name, [str.lower] is a
    parameter ([user_name_lower_with]) of which only its action on ASCII
    text is assumed ([lowers_ascii]). *)

From Stdlib Require Import String Ascii List Bool ZArith QArith Lia.
Import ListNotations.
Local Close Scope Q_scope.
Local Open Scope list_scope.
Local Open Scope string_scope.
Set Warnings "-register-all".

(** ** Python values, exceptions and outcomes *)

(** The values a decoded service response is made of.  [PyObject] is a
    typed SDK object (attributes only); [PyOpenAIObject] is the legacy SDK's
    response class, a [dict] subclass whose keys are also attributes.
    Floating-point numbers are left out: no path of the program looks at
    one. *)
Inductive pyval : Type :=
| PyNone
| PyBool (b : bool)
| PyInt (z : Z)
| PyStr (s : string)
| PyList (items : list pyval)
| PyDict (entries : list (string * pyval))
| PyObject (attrs : list (string * pyval))
| PyOpenAIObject (entries : list (string * pyval)).

(** Exception classes; all are subclasses of [Exception].  [OtherError]
    stands for the classes raised by collaborators (the SDK, the file
    system), named by their class name. *)
Inductive exc_class : Type :=
| KeyError | IndexError | TypeError | AttributeError | ValueError
| RuntimeError
| OtherError (name : string).

(** An exception instance: its class, its [args] and its [__cause__]
    (set by [raise ... from exc]). *)
Inductive pyexc : Type :=
| PyExc (cls : exc_class) (args : list pyval) (cause : option pyexc).

Definition exc_args (e : pyexc) : list pyval := let (_, a, _) := e in a.
Definition exc_cause (e : pyexc) : option pyexc := let (_, _, c) := e in c.

(** What running a piece of Python gives: a value, a raised exception, or
    [Unmodelled] when the run leaves the fragment of Python embedded here
    (only [str.format] can, on format syntax the template does not use). *)
Inductive outcome (A : Type) : Type :=
| Return (a : A)
| Raise (e : pyexc)
| Unmodelled.
Arguments Return {A} a.
Arguments Raise {A} e.
Arguments Unmodelled {A}.

Definition bind {A B : Type} (c : outcome A) (k : A -> outcome B) : outcome B :=
  match c with
  | Return a => k a
  | Raise e => Raise e
  | Unmodelled => Unmodelled
  end.

Notation "x <- c ;; k" := (bind c (fun x => k))
  (at level 61, c at next level, right associativity).

(** [try: c except Exception as exc: h exc]. *)
Definition try_except {A : Type} (c : outcome A) (h : pyexc -> outcome A) : outcome A :=
  match c with
  | Raise e => h e
  | other => other
  end.

(** ** Strings *)

Definition dq : string := String "034"%char "".
Definition tab : string := String "009"%char "".

(** [old in s] at the head of [s]. *)
Fixpoint startswith (old s : string) : bool :=
  match old with
  | "" => true
  | String a old' =>
      match s with
      | "" => false
      | String b s' => Ascii.eqb a b && startswith old' s'
      end
  end.

(** [sub in s]. *)
Fixpoint contains (sub s : string) : bool :=
  startswith sub s ||
  match s with
  | "" => false
  | String _ s' => contains sub s'
  end.

(** [s.count(c)] for a one-character [c]. *)
Fixpoint count_char (c : ascii) (s : string) : nat :=
  match s with
  | "" => 0
  | String a s' => (if Ascii.eqb a c then 1 else 0) + count_char c s'
  end.

(** [s.replace(old, new)] for a non-empty [old]: occurrences are replaced
    left to right without overlap; [skip] counts the characters of an
    occurrence still to be dropped. *)
Fixpoint replace_from (old new : string) (skip : nat) (s : string) : string :=
  match s with
  | "" => ""
  | String c s' =>
      match skip with
      | S k => replace_from old new k s'
      | O =>
          if startswith old s
          then new ++ replace_from old new (String.length old - 1) s'
          else String c (replace_from old new 0 s')
      end
  end.

(** With an empty [old], Python puts [new] before every character and at
    the end. *)
Fixpoint replace_empty (new s : string) : string :=
  match s with
  | "" => new
  | String c s' => new ++ String c (replace_empty new s')
  end.

Definition str_replace (old new s : string) : string :=
  match old with
  | "" => replace_empty new s
  | _ => replace_from old new 0 s
  end.

Definition lower_ascii (c : ascii) : ascii :=
  let n := nat_of_ascii c in
  if (65 <=? n)%nat && (n <=? 90)%nat then ascii_of_nat (n + 32) else c.

(** [s.lower()], on the ASCII range. *)
Fixpoint str_lower (s : string) : string :=
  match s with
  | "" => ""
  | String c s' => String (lower_ascii c) (str_lower s')
  end.

(** ** The fragment of [str.format] used by the template

    [markup_iter] follows CPython's MarkupIterator: literal text, the
    escapes [{{] and [}}], and replacement fields [{name}].  A malformed
    format string ends the stream with the [ValueError] CPython raises.
    Positional fields, attribute and index lookups, conversions and format
    specifications end it with [Beyond]: they are not embedded. *)
Inductive markup : Type :=
| Literal (c : ascii)
| Field (name : string)
| Malformed (e : pyexc)
| Beyond.

Inductive scan : Type :=
| InText
| SeenOpen
| SeenClose
| InField (name : string).

Definition value_error (msg : string) : pyexc := PyExc ValueError [PyStr msg] None.

Definition is_digit (c : ascii) : bool :=
  let n := nat_of_ascii c in (48 <=? n)%nat && (n <=? 57)%nat.

Fixpoint all_digits (s : string) : bool :=
  match s with
  | "" => true
  | String c s' => is_digit c && all_digits s'
  end.

(** A field whose name is empty or a number is positional. *)
Definition close_field (name : string) : markup :=
  if all_digits name then Beyond else Field name.

Definition field_syntax (c : ascii) : bool :=
  Ascii.eqb c "." || Ascii.eqb c "[" || Ascii.eqb c "!" || Ascii.eqb c ":".

Fixpoint markup_iter (st : scan) (s : string) : list markup :=
  match s with
  | "" =>
      match st with
      | InText => []
      | SeenOpen => [Malformed (value_error "Single '{' encountered in format string")]
      | SeenClose => [Malformed (value_error "Single '}' encountered in format string")]
      | InField _ => [Malformed (value_error "expected '}' before end of string")]
      end
  | String c s' =>
      let in_field name :=
        if Ascii.eqb c "}" then close_field name :: markup_iter InText s'
        else if Ascii.eqb c "{" then [Malformed (value_error "unexpected '{' in field name")]
        else if field_syntax c then [Beyond]
        else markup_iter (InField (name ++ String c "")) s' in
      match st with
      | InText =>
          if Ascii.eqb c "{" then markup_iter SeenOpen s'
          else if Ascii.eqb c "}" then markup_iter SeenClose s'
          else Literal c :: markup_iter InText s'
      | SeenOpen =>
          if Ascii.eqb c "{" then Literal "{" :: markup_iter InText s'
          else in_field ""
      | SeenClose =>
          if Ascii.eqb c "}" then Literal "}" :: markup_iter InText s'
          else [Malformed (value_error "Single '}' encountered in format string")]
      | InField name => in_field name
      end
  end.

(** Keyword arguments, all of type [str] in this program. *)
Definition kwargs : Type := list (string * string).

Fixpoint lookup {V : Type} (k : string) (m : list (string * V)) : option V :=
  match m with
  | [] => None
  | (k', v) :: m' => if String.eqb k k' then Some v else lookup k m'
  end.

(** Rendering is left to right and stops at the first failure.  The value
    of a field is appended as it is: nothing scans it. *)
Fixpoint render (kw : kwargs) (ms : list markup) : outcome string :=
  match ms with
  | [] => Return ""
  | Literal c :: ms' => s <- render kw ms' ;; Return (String c s)
  | Field name :: ms' =>
      match lookup name kw with
      | Some v => s <- render kw ms' ;; Return (v ++ s)
      | None => Raise (PyExc KeyError [PyStr name] None)
      end
  | Malformed e :: _ => Raise e
  | Beyond :: _ => Unmodelled
  end.

(** [template.format] called with the keyword arguments [kw]. *)
Definition str_format (template : string) (kw : kwargs) : outcome string :=
  render kw (markup_iter InText template).

(** ** The instruction template

    [PROMPT_DOCSTRING] is the raw string of the source, cut at its seven
    replacement fields: [prompt_text_0] .. [prompt_text_7] are the pieces
    of literal text between them. *)

Definition prompt_text_0 : string :=
  "Persona:
You are a Senior Recruiter at a top-tier technology firm with 10+ years of experience screening resumes for product and engineering roles. Be exacting, objective, and metrics-first. Act with the authority of an industry hiring lead: prefer modern, active language and quantifiable results.

Context:
You will receive three inputs:
- raw_career_data: the applicant's existing / old career text. Placeholder: ".

Definition prompt_text_1 : string :=
  "
- target_job_description: the target job description (JD) to optimize against. Placeholder: ".

Definition prompt_text_2 : string :=
  "
- user_name: the candidate's name for personalization. Placeholder: ".

Definition prompt_text_3 : string :=
  "

Primary Objective:
Transform the raw career data into a single-column, ATS-optimized resume aligned to the target job description. The final resume must be concise, use standard all-caps section headers, and emphasize measurable achievements using the $X-Y-Z$ formula: " ++ dq ++ "Accomplished [X] as measured by [Y] by doing [Z]" ++ dq ++ ". If the raw data lacks metrics, insert plausible placeholder metrics in square brackets, e.g., [increased % by 20%] or [reduced time by 2 days].

Instruction Set (strict — follow exactly):

1) KEYWORD DENSITY ANALYSIS
- Identify and prioritize keywords in ".

Definition prompt_text_4 : string :=
  ". Produce an internal list of top keywords (no need to output them). Use that list to maximize keyword overlap in the resume.
- When a JD skill appears verbatim (e.g., " ++ dq ++ "SQL" ++ dq ++ ", " ++ dq ++ "agile delivery" ++ dq ++ ", " ++ dq ++ "KPI dashboards" ++ dq ++ "), preserve the same tokenization and capitalization.

2) BULLET REWRITES (Experience)
- For every experience statement in ".

Definition prompt_text_5 : string :=
  ", rewrite into 3–5 achievement bullets using the $X-Y-Z$ formula.
- Start each bullet with a strong past-tense action verb (e.g., " ++ dq ++ "Led" ++ dq ++ ", " ++ dq ++ "Architected" ++ dq ++ ", " ++ dq ++ "Reduced" ++ dq ++ ", " ++ dq ++ "Scaled" ++ dq ++ ", " ++ dq ++ "Automated" ++ dq ++ ").
- Always quantify impact. If raw input lacks numeric results, insert a plausible placeholder in square brackets, e.g., " ++ dq ++ "[+30%]" ++ dq ++ ", " ++ dq ++ "[saved 2 days/week]" ++ dq ++ ", " ++ dq ++ "[$X]" ++ dq ++ ".
- Keep each bullet ≤ 140 characters when possible, but do not truncate essential metrics.

3) PROFESSIONAL SUMMARY
- Produce a 4-line PROFESSIONAL SUMMARY tailored to the JD. Each line must be a complete sentence (not fragments), include at least one high-priority keyword from the JD, and emphasize impact.

4) OUTPUT STRUCTURE & FORMATTING RULES
- The final resume output MUST use only these section headers in ALL CAPS: CONTACT, SUMMARY, SKILLS, EXPERIENCE, EDUCATION.
- Use a single-column plain-text layout. No tables, no special characters except simple bullets using a single asterisk (" ++ "*" ++ ") or hyphen (-).
- For CONTACT, include only: ".

Definition prompt_text_6 : string :=
  " (Full Name), placeholder email: ".

Definition prompt_text_7 : string :=
  "@example.com, phone placeholder: +91-XXXXXXXXXX, location placeholder: City, Country.
- For SKILLS, present a comma-separated list of hard and soft skills (prioritize JD keywords).
- For EXPERIENCE, present roles in reverse-chronological order. For each role: Company Name, Role Title, Dates (use placeholders if missing). Under each role, provide 3–5 bullets, each following the $X-Y-Z$ formula and containing at least one JD keyword.
- For EDUCATION, supply Degree, University, Graduation Year (use placeholders if missing).

5) OUTPUT REQUIREMENT (very strict)
- The model MUST output the final resume text **only**, preceded by the delimiter:
  ***ATS_OUTPUT_START***
- The final resume text must be enclosed **only once** inside a Markdown code block with triple backticks and plain text (```).
- Additionally (automation constraint), the overall result must be presented as three separate Markdown code blocks: an empty code block first, the required code block containing the resume (with delimiter) second, and an empty code block third. Example structure:
  ```
  ``` 
  ``` 
  ***ATS_OUTPUT_START***
  <FINAL RESUME TEXT — EXACT FORMAT AS SPECIFIED>
  ```
  ```
- Do not output any extra commentary, analysis, keyword lists, or JSON. Do not provide usage instructions. The response must contain exactly three Markdown code blocks as described (first and third empty), where the second contains the delimiter and the final resume.

6) LANGUAGE & STYLE
- Use present-day, modern professional English. Avoid flowery language. Prefer measurable, precise terms.
- Avoid personal pronouns except in the CONTACT header for the name.
- Use American English spelling (e.g., " ++ dq ++ "optimized" ++ dq ++ ", " ++ dq ++ "analyzed" ++ dq ++ ").

7) ERROR HANDLING RULES
- If the raw data is extremely short or missing, synthesize reasonable industry-typical experience using placeholders in square brackets, but do not invent company names.
- Never invent private/sensitive details (SSNs, real phone numbers, personal IDs).

8) DELIVERABLE
- Only the final ATS-optimized resume as described, embedded in the second of three Markdown code blocks and preceded by the exact delimiter ***ATS_OUTPUT_START***.
".

Definition PROMPT_DOCSTRING : string :=
  prompt_text_0 ++ "{raw_career_data}" ++
  prompt_text_1 ++ "{target_job_description}" ++
  prompt_text_2 ++ "{user_name}" ++
  prompt_text_3 ++ "{target_job_description}" ++
  prompt_text_4 ++ "{raw_career_data}" ++
  prompt_text_5 ++ "{user_name}" ++
  prompt_text_6 ++ "{user_name_lower}" ++
  prompt_text_7.

(** ** [build_prompt] *)

(** The two-step escaping of the source: every opening brace is doubled,
    then every closing brace. *)
Definition escape_braces (s : string) : string :=
  str_replace "}" "}}" (str_replace "{" "{{" s).

(** [user_name.lower()] with every space character then replaced by the
    empty string. *)
Definition user_name_lower (user_name : string) : string :=
  str_replace " " "" (str_lower user_name).

(** The keyword arguments [build_prompt] hands to [format]. *)
Definition build_prompt_kwargs
    (raw_career_data target_job_description user_name : string) : kwargs :=
  let safe_rcd := escape_braces raw_career_data in
  let safe_jd := escape_braces target_job_description in
  [ ("raw_career_data", safe_rcd);
    ("target_job_description", safe_jd);
    ("user_name", user_name);
    ("user_name_lower", user_name_lower user_name) ].

Definition build_prompt
    (raw_career_data target_job_description user_name : string) : outcome string :=
  str_format PROMPT_DOCSTRING
    (build_prompt_kwargs raw_career_data target_job_description user_name).

(** The built-in samples, used when no input file is given. *)
Definition _RAW_SAMPLE : string :=
  "
was responsible for managing product releases and coordinating with engineering and design teams. helped improve customer onboarding flow. worked on task automation and maintained product docs. occasionally tracked metrics and produced reports.
".

Definition _JD_SAMPLE : string :=
  "
We are hiring a Product Manager to drive product strategy and execution for our SaaS analytics product. Responsibilities include: roadmap prioritization, stakeholder management, defining KPIs and dashboards, running A/B experiments, working closely with engineering in agile delivery, and improving user onboarding and activation metrics. Required skills: product strategy, SQL, A/B testing, analytics, stakeholder communication, roadmap planning, OKRs, experimentation.
".

(** ** Subscripts and attribute access on response values

    The texts of the interpreter's messages differ between Python versions;
    no statement below depends on them. *)

Inductive pykey : Type :=
| KStr (s : string)
| KInt (z : Z).

Definition type_name (v : pyval) : string :=
  match v with
  | PyNone => "NoneType"
  | PyBool _ => "bool"
  | PyInt _ => "int"
  | PyStr _ => "str"
  | PyList _ => "list"
  | PyDict _ => "dict"
  | PyObject _ => "object"
  | PyOpenAIObject _ => "OpenAIObject"
  end.

(** [l[z]] on a sequence: a negative index counts from the end. *)
Definition py_index {A : Type} (l : list A) (z : Z) : option A :=
  let n := Z.of_nat (List.length l) in
  let i := if (z <? 0)%Z then (z + n)%Z else z in
  if ((0 <=? i)%Z && (i <? n)%Z)%bool then nth_error l (Z.to_nat i) else None.

(** [v[k]].  Dictionaries have string keys here, so an integer key is
    missing from them.  Subscripting a string yields a one-byte string. *)
Definition getitem (v : pyval) (k : pykey) : outcome pyval :=
  match v with
  | PyDict d | PyOpenAIObject d =>
      match k with
      | KStr s =>
          match lookup s d with
          | Some x => Return x
          | None => Raise (PyExc KeyError [PyStr s] None)
          end
      | KInt z => Raise (PyExc KeyError [PyInt z] None)
      end
  | PyList l =>
      match k with
      | KInt z =>
          match py_index l z with
          | Some x => Return x
          | None => Raise (PyExc IndexError [PyStr "list index out of range"] None)
          end
      | KStr _ =>
          Raise (PyExc TypeError [PyStr "list indices must be integers or slices, not str"] None)
      end
  | PyStr s =>
      match k with
      | KInt z =>
          match py_index (list_ascii_of_string s) z with
          | Some c => Return (PyStr (String c ""))
          | None => Raise (PyExc IndexError [PyStr "string index out of range"] None)
          end
      | KStr _ => Raise (PyExc TypeError [PyStr "string indices must be integers"] None)
      end
  | PyNone | PyBool _ | PyInt _ | PyObject _ =>
      Raise (PyExc TypeError
               [PyStr ("'" ++ type_name v ++ "' object is not subscriptable")] None)
  end.

(** [v.name], for names that are not methods of the built-in classes (the
    program asks for [choices], [message] and [content] only).  The legacy
    response class answers with the entry stored under the name. *)
Definition getattr (v : pyval) (name : string) : outcome pyval :=
  let missing :=
    Raise (PyExc AttributeError
             [PyStr ("'" ++ type_name v ++ "' object has no attribute '" ++ name ++ "'")]
             None) in
  match v with
  | PyObject attrs =>
      match lookup name attrs with
      | Some x => Return x
      | None => missing
      end
  | PyOpenAIObject d =>
      match lookup name d with
      | Some x => Return x
      | None => Raise (PyExc AttributeError [PyStr name] None)
      end
  | _ => missing
  end.

(** ** [call_openai_chat] *)

Record message : Type := { role : string; content : string }.

(** The keyword arguments of [openai.ChatCompletion.create].  The
    temperature, a float in the source, is a rational here. *)
Record request : Type := {
  req_model : string;
  req_messages : list message;
  req_temperature : Q;
  req_max_tokens : Z
}.

(** The three access paths, in the order the source tries them. *)
Definition path_mapping (resp : pyval) : outcome pyval :=
  choices <- getitem resp (KStr "choices") ;;
  first <- getitem choices (KInt 0) ;;
  msg <- getitem first (KStr "message") ;;
  getitem msg (KStr "content").

Definition path_attribute (resp : pyval) : outcome pyval :=
  choices <- getattr resp "choices" ;;
  first <- getitem choices (KInt 0) ;;
  msg <- getattr first "message" ;;
  getattr msg "content".

Definition path_legacy (resp : pyval) : outcome pyval :=
  choices <- getitem resp (KStr "choices") ;;
  first <- getitem choices (KInt 0) ;;
  getitem first (KStr "text").

Definition unexpected_structure : string := "Unexpected OpenAI response structure".

(** The nested [try]/[except Exception] of [call_openai_chat] around the
    three paths. *)
Definition response_text (resp : pyval) : outcome pyval :=
  try_except (path_mapping resp) (fun _ =>
    try_except (path_attribute resp) (fun _ =>
      try_except (path_legacy resp) (fun exc =>
        Raise (PyExc RuntimeError [PyStr unexpected_structure] (Some exc))))).

(** The one request of a call: the prompt as a single system message. *)
Definition chat_request (prompt model : string) (temperature : Q) (max_tokens : Z)
  : request :=
  {| req_model := model;
     req_messages := [ {| role := "system"; content := prompt |} ];
     req_temperature := temperature;
     req_max_tokens := max_tokens |}.

(** [create] is the service call; an exception it raises leaves
    [call_openai_chat] as it is. *)
Definition call_openai_chat (create : request -> outcome pyval)
    (prompt model : string) (temperature : Q) (max_tokens : Z) : outcome pyval :=
  resp <- create (chat_request prompt model temperature max_tokens) ;;
  response_text resp.

(** ** [main] *)

(** The parsed command line. *)
Record namespace : Type := {
  raw_file : option string;
  jd_file : option string;
  name : string;
  model : string;
  api_key : option string;
  max_tokens : Z
}.

(** Truth value of a response value; a plain object is true. *)
Definition truthy (v : pyval) : bool :=
  match v with
  | PyNone => false
  | PyBool b => b
  | PyInt z => negb (z =? 0)%Z
  | PyStr s => negb (String.eqb s "")
  | PyList l => match l with [] => false | _ => true end
  | PyDict d | PyOpenAIObject d => match d with [] => false | _ => true end
  | PyObject _ => true
  end.

(** Truth value of an optional string ([None] and the empty string are
    false). *)
Definition given (o : option string) : bool :=
  match o with
  | Some s => negb (String.eqb s "")
  | None => false
  end.

(** [sys.stdout.write(v)]: the text written, or a [TypeError] for a value
    that is not a string. *)
Definition stdout_write (v : pyval) : outcome string :=
  match v with
  | PyStr s => Return s
  | _ => Raise (PyExc TypeError
                  [PyStr ("write() argument must be str, not " ++ type_name v)] None)
  end.

Section Environment.

(** The process environment, the file system ([open] and [read] of a
    path), the completion service, and [str] of an exception. *)
Variable environ : list (string * string).
Variable open_read : string -> outcome string.
Variable create : request -> outcome pyval.
Variable exc_str : pyexc -> string.

Definition read_file_or_default (path : option string) (default : string)
  : outcome string :=
  match path with
  | Some p =>
      if String.eqb p "" then Return default
      else
        try_except (open_read p) (fun exc =>
          Raise (PyExc RuntimeError
                   [PyStr ("Failed to read " ++ p ++ ": " ++ exc_str exc)] (Some exc)))
  | None => Return default
  end.

(** The key [main] stores in [openai.api_key]. *)
Definition configured_api_key (args : namespace) : option string :=
  if given (api_key args) then api_key args else lookup "OPENAI_API_KEY" environ.

(** [main] after [parse_args]: the text written to standard output and
    the returned exit code.  Log records are not part of the embedding. *)
Definition main (args : namespace) : outcome (string * Z) :=
  if negb (given (configured_api_key args)) then Return ("", 2%Z)
  else
    raw <- read_file_or_default (raw_file args) _RAW_SAMPLE ;;
    jd <- read_file_or_default (jd_file args) _JD_SAMPLE ;;
    prompt <- build_prompt raw jd (name args) ;;
    match call_openai_chat create prompt (model args) 0%Q (max_tokens args) with
    | Raise _ => Return ("", 3%Z)
    | Return assistant_text =>
        out <- stdout_write (if truthy assistant_text then assistant_text else PyStr "") ;;
        Return (out, 0%Z)
    | Unmodelled => Unmodelled
    end.

End Environment.

(** ** [parse_args] and [main] from the command line

    The options as [argparse] hands them over: [None] for an option that
    was not given, the integer of [--max-tokens] already converted.  The
    splitting of the argument list and the exits of [argparse] on a
    malformed command line are not embedded. *)
Record command_line : Type := {
  cl_raw_file : option string;
  cl_jd_file : option string;
  cl_name : option string;
  cl_model : option string;
  cl_api_key : option string;
  cl_max_tokens : option Z
}.

Definition or_default {A : Type} (o : option A) (default : A) : A :=
  match o with
  | Some a => a
  | None => default
  end.

(** The defaults of the parser; the one of [--model] is read from the
    environment variable [OPENAI_MODEL]. *)
Definition parse_args (environ : list (string * string)) (cl : command_line)
  : namespace :=
  {| raw_file := cl_raw_file cl;
     jd_file := cl_jd_file cl;
     name := or_default (cl_name cl) "Alex Morgan";
     model := or_default (cl_model cl)
                (or_default (lookup "OPENAI_MODEL" environ) "gpt-5-thinking-mini");
     api_key := cl_api_key cl;
     max_tokens := or_default (cl_max_tokens cl) 1200%Z |}.

(** [main] from its first line: the command line is parsed, then the run
    goes on as [main] above. *)
Definition main_argv (environ : list (string * string))
    (open_read : string -> outcome string) (create : request -> outcome pyval)
    (exc_str : pyexc -> string) (cl : command_line) : outcome (string * Z) :=
  main environ open_read create exc_str (parse_args environ cl).

(** ** Vocabulary of the statements *)

(** [c in s] for a character. *)
Fixpoint mem_char (c : ascii) (s : string) : bool :=
  match s with
  | "" => false
  | String a s' => Ascii.eqb a c || mem_char c s'
  end.

(** Replacement of one character, the shape every call of [replace] in the
    source has. *)
Fixpoint replace_char (a : ascii) (new s : string) : string :=
  match s with
  | "" => ""
  | String c s' =>
      if Ascii.eqb a c then new ++ replace_char a new s'
      else String c (replace_char a new s')
  end.

Fixpoint filter_string (keep : ascii -> bool) (s : string) : string :=
  match s with
  | "" => ""
  | String c s' => if keep c then String c (filter_string keep s') else filter_string keep s'
  end.

(** The replacement fields of a markup stream, in order. *)
Definition fields_of (ms : list markup) : list string :=
  flat_map (fun m => match m with Field n => [n] | _ => [] end) ms.

(** A run of literal text as markup. *)
Definition literals (s : string) : list markup :=
  map Literal (list_ascii_of_string s).

(** The four slot names and their unresolved tokens. *)
Definition slot_names : list string :=
  ["raw_career_data"; "target_job_description"; "user_name"; "user_name_lower"].

Definition placeholder_tokens : list string :=
  map (fun n => "{" ++ n ++ "}") slot_names.

(** The template with its seven fields filled by the four values. *)
Definition compose_prompt (rcd jd un unl : string) : string :=
  prompt_text_0 ++ rcd ++
  prompt_text_1 ++ jd ++
  prompt_text_2 ++ un ++
  prompt_text_3 ++ jd ++
  prompt_text_4 ++ rcd ++
  prompt_text_5 ++ un ++
  prompt_text_6 ++ unl ++
  prompt_text_7.

(** ASCII white space, as [str.isspace] sees it. *)
Definition is_whitespace (c : ascii) : bool :=
  let n := nat_of_ascii c in
  (n =? 32)%nat || ((9 <=? n)%nat && (n <=? 13)%nat) || ((28 <=? n)%nat && (n <=? 31)%nat).

Definition is_upper (c : ascii) : bool :=
  let n := nat_of_ascii c in (65 <=? n)%nat && (n <=? 90)%nat.

(** Sample responses around a content value: the mapping shape, the legacy
    completion shape and a typed object. *)
Definition mapping_response (text : pyval) : pyval :=
  PyDict [("choices", PyList [PyDict [("message", PyDict [("content", text)])]])].

Definition legacy_response (text : pyval) : pyval :=
  PyDict [("choices", PyList [PyDict [("text", text)]])].

Definition typed_response (text : pyval) : pyval :=
  PyObject [("choices", PyList [PyObject [("message", PyObject [("content", text)])]])].

(** A run with the defaults of the command line. *)
Definition default_args : namespace :=
  {| raw_file := None;
     jd_file := None;
     name := "Alex Morgan";
     model := "gpt-5-thinking-mini";
     api_key := None;
     max_tokens := 1200 |}.

(** A file system without files, and a stand-in for [str] of an exception. *)
Definition no_file (path : string) : outcome string :=
  Raise (PyExc (OtherError "FileNotFoundError") [PyStr path] None).

Definition no_exc_str (e : pyexc) : string := "".

(** ** Vocabulary of the further properties *)

(** Every character of [s] passes [p]. *)
Fixpoint forall_chars (p : ascii -> bool) (s : string) : bool :=
  match s with
  | "" => true
  | String c s' => p c && forall_chars p s'
  end.

(** Text made of ASCII characters only. *)
Definition is_ascii (s : string) : bool :=
  forall_chars (fun c => (nat_of_ascii c <? 128)%nat) s.

(** The derivation of the handle with [str.lower] as a parameter: [lower]
    stands for the method of the interpreter, which knows every cased
    letter of Unicode.  [user_name_lower] is this derivation at
    [str_lower]. *)
Definition user_name_lower_with (lower : string -> string) (user_name : string)
  : string :=
  str_replace " " "" (lower user_name).

(** What is assumed of [str.lower]: on ASCII text it maps [A]..[Z] to
    [a]..[z] and leaves every other character, as [str_lower] does. *)
Definition lowers_ascii (lower : string -> string) : Prop :=
  forall s, is_ascii s = true -> lower s = str_lower s.

(** The entries of a value that answers to string subscripts. *)
Definition mapping_entries (v : pyval) : option (list (string * pyval)) :=
  match v with
  | PyDict d | PyOpenAIObject d => Some d
  | _ => None
  end.

Definition is_text (v : pyval) : bool :=
  match v with
  | PyStr _ => true
  | _ => false
  end.

(** A service that knows one model only. *)
Definition one_model_service (req : request) : outcome pyval :=
  if String.eqb (req_model req) "gpt-5-thinking-mini"
  then Return (mapping_response (PyStr "RESUME TEXT"))
  else Raise (PyExc (OtherError "InvalidRequestError") [] None).

(** ** Facts about strings *)

Lemma append_empty_right (s : string) : s ++ "" = s.
Proof. induction s as [|a s IH]; simpl; [reflexivity | now rewrite IH]. Qed.

Lemma str_replace_char (a : ascii) (new s : string) :
  str_replace (String a "") new s = replace_char a new s.
Proof.
  unfold str_replace.
  induction s as [|c s IH]; simpl; [reflexivity|].
  rewrite andb_true_r. destruct (Ascii.eqb a c); now rewrite IH.
Qed.

Lemma replace_char_absent (a : ascii) (new s : string) :
  mem_char a s = false -> replace_char a new s = s.
Proof.
  induction s as [|c s IH]; simpl; [reflexivity|].
  intros H. apply orb_false_iff in H. destruct H as [Hc Hs].
  rewrite Ascii.eqb_sym, Hc. now rewrite IH.
Qed.

Lemma replace_char_filter (a : ascii) (s : string) :
  replace_char a "" s = filter_string (fun c => negb (Ascii.eqb a c)) s.
Proof.
  induction s as [|c s IH]; simpl; [reflexivity|].
  destruct (Ascii.eqb a c); simpl; now rewrite IH.
Qed.

Lemma mem_char_filter (a : ascii) (s : string) :
  mem_char a (filter_string (fun c => negb (Ascii.eqb a c)) s) = false.
Proof.
  induction s as [|c s IH]; simpl; [reflexivity|].
  destruct (Ascii.eqb a c) eqn:E; simpl; [exact IH|].
  rewrite Ascii.eqb_sym, E. exact IH.
Qed.

Lemma count_char_app (c : ascii) (s t : string) :
  count_char c (s ++ t) = count_char c s + count_char c t.
Proof.
  induction s as [|a s IH]; simpl; [reflexivity|].
  rewrite IH. lia.
Qed.

(** Doubling a character doubles its count and leaves the other counts. *)
Lemma count_char_doubled (a : ascii) (s : string) :
  count_char a (replace_char a (String a (String a "")) s) = 2 * count_char a s.
Proof.
  induction s as [|b s IH]; simpl; [reflexivity|].
  destruct (Ascii.eqb a b) eqn:E.
  - apply Ascii.eqb_eq in E. subst b.
    cbn [append count_char]. rewrite IH, Ascii.eqb_refl. lia.
  - cbn [count_char]. rewrite IH, Ascii.eqb_sym, E. lia.
Qed.

Lemma count_char_doubled_other (c a : ascii) (s : string) :
  Ascii.eqb a c = false ->
  count_char c (replace_char a (String a (String a "")) s) = count_char c s.
Proof.
  intros Hac. induction s as [|b s IH]; simpl; [reflexivity|].
  destruct (Ascii.eqb a b) eqn:E.
  - apply Ascii.eqb_eq in E. subst b.
    cbn [append count_char]. rewrite IH, Hac. lia.
  - cbn [count_char]. now rewrite IH.
Qed.

(** ** Facts about the format scan and rendering *)

Lemma bind_Return {A B : Type} (a : A) (k : A -> outcome B) :
  bind (Return a) k = k a.
Proof. reflexivity. Qed.

Lemma render_literals (kw : kwargs) (s : string) (ms : list markup) :
  render kw (literals s ++ ms)%list = (r <- render kw ms ;; Return (s ++ r)).
Proof.
  unfold literals.
  induction s as [|c s IH]; simpl.
  - destruct (render kw ms); reflexivity.
  - rewrite IH. destruct (render kw ms); reflexivity.
Qed.

Lemma render_field (kw : kwargs) (n v : string) (ms : list markup) :
  lookup n kw = Some v ->
  render kw (Field n :: ms) = (r <- render kw ms ;; Return (v ++ r)).
Proof. intros H. simpl. now rewrite H. Qed.

(** The markup of the template: eight runs of literal text around seven
    fields. *)
Lemma markup_PROMPT_DOCSTRING :
  markup_iter InText PROMPT_DOCSTRING =
  (literals prompt_text_0 ++ Field "raw_career_data" ::
   literals prompt_text_1 ++ Field "target_job_description" ::
   literals prompt_text_2 ++ Field "user_name" ::
   literals prompt_text_3 ++ Field "target_job_description" ::
   literals prompt_text_4 ++ Field "raw_career_data" ::
   literals prompt_text_5 ++ Field "user_name" ::
   literals prompt_text_6 ++ Field "user_name_lower" ::
   literals prompt_text_7)%list.
Proof. vm_compute. reflexivity. Qed.

(** [format] on the template succeeds for any four values and puts each
    value, as it is, where its fields stand. *)
Lemma format_PROMPT_DOCSTRING (kw : kwargs) (rcd jd un unl : string) :
  lookup "raw_career_data" kw = Some rcd ->
  lookup "target_job_description" kw = Some jd ->
  lookup "user_name" kw = Some un ->
  lookup "user_name_lower" kw = Some unl ->
  str_format PROMPT_DOCSTRING kw = Return (compose_prompt rcd jd un unl).
Proof.
  intros Hr Hj Hu Hl.
  unfold str_format. rewrite markup_PROMPT_DOCSTRING.
  repeat (rewrite render_literals;
          first [ rewrite (render_field _ _ _ _ Hr)
                | rewrite (render_field _ _ _ _ Hj)
                | rewrite (render_field _ _ _ _ Hu)
                | rewrite (render_field _ _ _ _ Hl) ]).
  rewrite <- (app_nil_r (literals prompt_text_7)), render_literals.
  cbn [render bind]. unfold compose_prompt.
  now rewrite append_empty_right.
Qed.

Lemma build_prompt_composed (r j n : string) :
  build_prompt r j n =
  Return (compose_prompt (escape_braces r) (escape_braces j) n (user_name_lower n)).
Proof.
  unfold build_prompt, build_prompt_kwargs.
  apply format_PROMPT_DOCSTRING; reflexivity.
Qed.

Lemma escape_braces_replace_char (s : string) :
  escape_braces s = replace_char "}" "}}" (replace_char "{" "{{" s).
Proof. unfold escape_braces. now rewrite !str_replace_char. Qed.

Lemma user_name_lower_replace_char (n : string) :
  user_name_lower n = replace_char " " "" (str_lower n).
Proof. unfold user_name_lower. now rewrite str_replace_char. Qed.

Lemma lower_ascii_space (c : ascii) :
  Ascii.eqb " " (lower_ascii c) = Ascii.eqb " " c.
Proof.
  destruct c as [[] [] [] [] [] [] [] []]; reflexivity.
Qed.

(** ** The prompt builder *)

(** C1 (the code breaks it).  [escape_braces] doubles every brace of its
    input, and [format] puts the escaped text into the prompt as it is.  On
    the end-to-end input of the specification the braces of the career text
    therefore reach the composed prompt doubled: the prompt holds the
    escaped form of the text and nowhere the text as it was supplied, and
    the one opening brace of the input shows up four times (twice at each
    of the two fields of the slot). *)
Theorem build_prompt_keeps_braces_doubled :
  (forall s,
     count_char "{" (escape_braces s) = 2 * count_char "{" s /\
     count_char "}" (escape_braces s) = 2 * count_char "}" s) /\
  exists p,
    build_prompt "worked on {fake} stuff" "Need SQL skills" "Jo Lee" = Return p /\
    contains "worked on {{fake}} stuff" p = true /\
    contains "worked on {fake} stuff" p = false /\
    count_char "{" "worked on {fake} stuff" = 1 /\
    count_char "{" p = 4 /\
    contains "jolee@example.com" p = true.
Proof.
  split.
  - intros s. rewrite escape_braces_replace_char. split.
    + rewrite count_char_doubled_other by reflexivity. apply count_char_doubled.
    + rewrite count_char_doubled.
      now rewrite count_char_doubled_other by reflexivity.
  - eexists. split; [apply build_prompt_composed|].
    vm_compute. repeat split; reflexivity.
Qed.

(** C2 (the code breaks it).  [build_prompt] hands [user_name] to [format]
    as it came in, for every input, while the two sibling inputs go through
    [escape_braces] first; on a name with braces the two treatments
    differ. *)
Theorem build_prompt_passes_user_name_unescaped :
  (forall r j n, lookup "user_name" (build_prompt_kwargs r j n) = Some n) /\
  (forall r j n,
     lookup "raw_career_data" (build_prompt_kwargs r j n) = Some (escape_braces r) /\
     lookup "target_job_description" (build_prompt_kwargs r j n) = Some (escape_braces j)) /\
  escape_braces "{x}" = "{{x}}" /\
  exists p,
    build_prompt "{x}" "{x}" "{x}" = Return p /\
    contains "Placeholder: {{x}}" p = true /\
    contains "Placeholder: {x}" p = true /\
    contains "include only: {x} (Full Name)" p = true /\
    contains "include only: {{x}} (Full Name)" p = false.
Proof.
  split; [reflexivity|]. split; [split; reflexivity|]. split; [reflexivity|].
  eexists. split; [apply build_prompt_composed|].
  vm_compute. repeat split; reflexivity.
Qed.

Lemma user_name_lower_cons (c : ascii) (s : string) :
  user_name_lower (String c s) =
  if Ascii.eqb c " " then user_name_lower s
  else String (lower_ascii c) (user_name_lower s).
Proof.
  rewrite !user_name_lower_replace_char.
  cbn [str_lower replace_char].
  rewrite lower_ascii_space, (Ascii.eqb_sym c " ").
  destruct (Ascii.eqb " " c); reflexivity.
Qed.

Lemma lower_ascii_idempotent (c : ascii) :
  lower_ascii (lower_ascii c) = lower_ascii c.
Proof. destruct c as [[] [] [] [] [] [] [] []]; reflexivity. Qed.

Lemma lower_ascii_not_upper (c : ascii) : is_upper (lower_ascii c) = false.
Proof. destruct c as [[] [] [] [] [] [] [] []]; reflexivity. Qed.

Lemma lower_ascii_is_space (c : ascii) :
  Ascii.eqb (lower_ascii c) " " = Ascii.eqb c " ".
Proof. destruct c as [[] [] [] [] [] [] [] []]; reflexivity. Qed.

(** An opening brace cannot start inside text that holds none. *)
Lemma contains_after_text (x lit s : string) :
  mem_char "{" lit = false ->
  contains (String "{" x) (lit ++ s) = contains (String "{" x) s.
Proof.
  induction lit as [|c lit IH]; [reflexivity|].
  cbn [mem_char]. intros H. apply orb_false_iff in H. destruct H as [Hc Hl].
  cbn [append contains startswith].
  rewrite (Ascii.eqb_sym "{" c), Hc. cbn [andb orb]. now apply IH.
Qed.

(** A text that ends with its only closing brace and holds no space cannot
    begin at the head of literal text that has a space and no closing
    brace. *)
Lemma startswith_text_barrier (u lit s : string) :
  mem_char " " u = false ->
  mem_char "}" lit = false ->
  mem_char " " lit = true ->
  startswith (u ++ "}") (lit ++ s) = false.
Proof.
  revert u. induction lit as [|c lit IH]; intros u Hu Hc Hs; [discriminate Hs|].
  cbn [mem_char] in Hc, Hs. apply orb_false_iff in Hc. destruct Hc as [Hc1 Hc2].
  destruct u as [|d u]; cbn [append startswith].
  - rewrite (Ascii.eqb_sym "}" c), Hc1. reflexivity.
  - cbn [mem_char] in Hu. apply orb_false_iff in Hu. destruct Hu as [Hd Hu].
    destruct (Ascii.eqb d c) eqn:E; [|reflexivity].
    apply Ascii.eqb_eq in E. subst d. rewrite Hd in Hs. cbn [orb] in Hs.
    cbn [andb]. now apply IH.
Qed.

(** Such a text begins a value followed by literal text only if it lies in
    the value. *)
Lemma startswith_before_text (u v lit s : string) :
  mem_char " " u = false ->
  mem_char "}" lit = false ->
  mem_char " " lit = true ->
  startswith (u ++ "}") (v ++ lit ++ s) = startswith (u ++ "}") v.
Proof.
  intros Hu Hc Hs. revert u Hu. induction v as [|c v IH]; intros u Hu.
  - cbn [append]. rewrite (startswith_text_barrier _ _ _ Hu Hc Hs).
    destruct u; reflexivity.
  - destruct u as [|d u]; cbn [append startswith]; [reflexivity|].
    cbn [mem_char] in Hu. apply orb_false_iff in Hu. destruct Hu as [_ Hu].
    now rewrite (IH u Hu).
Qed.

(** A token occurs in a value followed by literal text and a rest exactly
    when it occurs in the value or in the rest: it cannot reach across the
    literal text. *)
Lemma contains_value_then_text (u v lit s : string) :
  mem_char " " u = false ->
  mem_char "{" lit = false ->
  mem_char "}" lit = false ->
  mem_char " " lit = true ->
  contains (String "{" (u ++ "}")) (v ++ lit ++ s) =
  contains (String "{" (u ++ "}")) v || contains (String "{" (u ++ "}")) s.
Proof.
  intros Hu Ho Hc Hs.
  assert (Hb : forall w,
             startswith (String "{" (u ++ "}")) (w ++ lit ++ s) =
             startswith (String "{" (u ++ "}")) w).
  { intros w. apply (startswith_before_text (String "{" u)); auto. }
  induction v as [|c v IH].
  - cbn [append]. now rewrite (contains_after_text _ _ _ Ho).
  - change (contains (String "{" (u ++ "}")) (String c v ++ lit ++ s))
      with (startswith (String "{" (u ++ "}")) (String c v ++ lit ++ s) ||
            contains (String "{" (u ++ "}")) (v ++ lit ++ s)).
    rewrite Hb, IH.
    change (contains (String "{" (u ++ "}")) (String c v))
      with (startswith (String "{" (u ++ "}")) (String c v) ||
            contains (String "{" (u ++ "}")) v).
    now rewrite orb_assoc.
Qed.

(** The literal text of the template: no piece holds a brace, and every
    piece after the first holds a space. *)
Lemma prompt_text_barriers :
  mem_char "{" prompt_text_0 = false /\
  Forall (fun lit =>
            mem_char "{" lit = false /\ mem_char "}" lit = false /\
            mem_char " " lit = true)
    [prompt_text_1; prompt_text_2; prompt_text_3; prompt_text_4;
     prompt_text_5; prompt_text_6; prompt_text_7].
Proof.
  split; [vm_compute; reflexivity|].
  repeat (constructor; [vm_compute; repeat split; reflexivity|]). constructor.
Qed.

(** A token occurs in the composed prompt exactly when it occurs in one of
    the values. *)
Lemma contains_compose_prompt (u rcd jd un unl : string) :
  mem_char " " u = false ->
  contains (String "{" (u ++ "}")) (compose_prompt rcd jd un unl) =
  contains (String "{" (u ++ "}")) rcd || contains (String "{" (u ++ "}")) jd ||
  contains (String "{" (u ++ "}")) un || contains (String "{" (u ++ "}")) unl.
Proof.
  intros Hu.
  destruct prompt_text_barriers as [H0 HF].
  repeat match type of HF with
         | Forall _ (_ :: _) =>
             let H := fresh "Hlit" in
             let HF' := fresh "HF" in
             pose proof (Forall_inv HF) as H;
             pose proof (Forall_inv_tail HF) as HF';
             clear HF; rename HF' into HF;
             destruct H as (? & ? & ?)
         end.
  unfold compose_prompt.
  rewrite (contains_after_text _ _ _ H0).
  rewrite <- (append_empty_right prompt_text_7).
  rewrite !contains_value_then_text by assumption.
  cbn [contains startswith].
  destruct (contains (String "{" (u ++ "}")) rcd),
           (contains (String "{" (u ++ "}")) jd),
           (contains (String "{" (u ++ "}")) un),
           (contains (String "{" (u ++ "}")) unl); reflexivity.
Qed.

(** C4.  For every input [build_prompt] returns a prompt in which no
    placeholder of the template is left unresolved: a placeholder token
    occurs in the prompt exactly when it occurs in one of the values that
    were substituted (the text the caller supplied), never through the
    template.  Every field of the template is one of the four named slots,
    and these four are the names [build_prompt] binds. *)
Theorem build_prompt_total_substitution (r j n : string) :
  exists p,
    build_prompt r j n = Return p /\
    (forall tok, In tok placeholder_tokens ->
       contains tok p =
       contains tok (escape_braces r) || contains tok (escape_braces j) ||
       contains tok n || contains tok (user_name_lower n)) /\
    incl (fields_of (markup_iter InText PROMPT_DOCSTRING)) slot_names /\
    map fst (build_prompt_kwargs r j n) = slot_names.
Proof.
  eexists. split; [apply build_prompt_composed|].
  split; [|split].
  - intros tok Htok. simpl in Htok.
    destruct Htok as [<-|[<-|[<-|[<-|[]]]]].
    + apply (contains_compose_prompt "raw_career_data"). reflexivity.
    + apply (contains_compose_prompt "target_job_description"). reflexivity.
    + apply (contains_compose_prompt "user_name"). reflexivity.
    + apply (contains_compose_prompt "user_name_lower"). reflexivity.
  - rewrite markup_PROMPT_DOCSTRING.
    intros f Hf. vm_compute in Hf. unfold slot_names. simpl. tauto.
  - reflexivity.
Qed.

(** The theorem at inputs that hold braces but spell no token: the prompt
    holds none of the four tokens. *)
Lemma build_prompt_total_substitution_witness :
  exists p,
    build_prompt "{invented_slot}" "worked on {fake} stuff" "Jo {x} Lee" = Return p /\
    forall tok, In tok placeholder_tokens -> contains tok p = false.
Proof.
  destruct (build_prompt_total_substitution
              "{invented_slot}" "worked on {fake} stuff" "Jo {x} Lee")
    as (p & Hp & Htok & _).
  exists p. split; [exact Hp|].
  intros tok Hin. rewrite (Htok tok Hin).
  simpl in Hin. destruct Hin as [<-|[<-|[<-|[<-|[]]]]]; reflexivity.
Defined.

(** C5, counterexample.  A tab in the name is white space and stays in the
    handle. *)
Lemma user_name_lower_keeps_tab :
  user_name_lower ("Jo" ++ tab ++ "Lee") = "jo" ++ tab ++ "lee" /\
  is_whitespace "009" = true /\
  mem_char "009" (user_name_lower ("Jo" ++ tab ++ "Lee")) = true.
Proof. vm_compute. repeat split; reflexivity. Qed.

Lemma is_ascii_cons (c : ascii) (s : string) :
  is_ascii (String c s) = true -> is_ascii s = true.
Proof.
  unfold is_ascii. cbn [forall_chars]. intros H.
  now apply andb_true_iff in H.
Qed.

(** On ASCII names the derivation with the interpreter's [lower] is the
    one embedded in [build_prompt]. *)
Lemma user_name_lower_with_ascii (lower : string -> string) (n : string) :
  lowers_ascii lower -> is_ascii n = true ->
  user_name_lower_with lower n = user_name_lower n.
Proof.
  intros Hl Hn. unfold user_name_lower_with, user_name_lower.
  now rewrite (Hl n Hn).
Qed.

(** C5, amended.  For every name the handle is the lower-cased name with
    every space character removed and nothing else: what [lower] returns is
    kept, in order, but for its spaces, so the handle holds no space while
    other white space and punctuation stay.  On ASCII names the lowering
    changes upper-case letters only: character by character, a space is
    dropped and any other character is kept after [lower_ascii].  The two
    names of the specification give the stated handles. *)
Theorem user_name_lower_spec (lower : string -> string) :
  lowers_ascii lower ->
  (forall n,
     user_name_lower_with lower n =
     filter_string (fun c => negb (Ascii.eqb " " c)) (lower n)) /\
  (forall n, mem_char " " (user_name_lower_with lower n) = false) /\
  (forall c s,
     is_ascii (String c s) = true ->
     user_name_lower_with lower (String c s) =
     if Ascii.eqb c " " then user_name_lower_with lower s
     else String (lower_ascii c) (user_name_lower_with lower s)) /\
  (forall c, lower_ascii c = c \/ is_upper c = true) /\
  user_name_lower_with lower "Alex Morgan" = "alexmorgan" /\
  user_name_lower_with lower "McKinsey O'Neil" = "mckinseyo'neil".
Proof.
  intros Hl.
  assert (Hf : forall n,
             user_name_lower_with lower n =
             filter_string (fun c => negb (Ascii.eqb " " c)) (lower n)).
  { intros n. unfold user_name_lower_with.
    now rewrite str_replace_char, replace_char_filter. }
  split; [exact Hf|].
  split; [intros n; rewrite Hf; apply mem_char_filter|].
  split; [|split; [|split]].
  - intros c s Hcs.
    rewrite (user_name_lower_with_ascii lower _ Hl Hcs).
    rewrite (user_name_lower_with_ascii lower _ Hl (is_ascii_cons _ _ Hcs)).
    apply user_name_lower_cons.
  - intros c. unfold lower_ascii, is_upper.
    destruct ((65 <=? nat_of_ascii c)%nat && (nat_of_ascii c <=? 90)%nat); auto.
  - now rewrite (user_name_lower_with_ascii lower _ Hl) by reflexivity.
  - now rewrite (user_name_lower_with_ascii lower _ Hl) by reflexivity.
Qed.

(** The theorem at the lowering of the ASCII embedding. *)
Lemma user_name_lower_spec_witness :
  user_name_lower_with str_lower "Alex Morgan" = "alexmorgan" /\
  user_name_lower_with str_lower "McKinsey O'Neil" = "mckinseyo'neil" /\
  mem_char " " (user_name_lower_with str_lower "Jo Lee") = false.
Proof.
  assert (Hl : lowers_ascii str_lower) by (intros s _; reflexivity).
  split; [|split].
  - exact (proj1 (proj2 (proj2 (proj2 (proj2 (user_name_lower_spec str_lower Hl)))))).
  - exact (proj2 (proj2 (proj2 (proj2 (proj2 (user_name_lower_spec str_lower Hl)))))).
  - exact (proj1 (proj2 (user_name_lower_spec str_lower Hl)) "Jo Lee").
Defined.

(** C6, counterexample.  The template refers to the career text and to the
    job description twice each, not once. *)
Lemma template_fields_occur_twice :
  count_occ string_dec (fields_of (markup_iter InText PROMPT_DOCSTRING))
    "raw_career_data" = 2 /\
  count_occ string_dec (fields_of (markup_iter InText PROMPT_DOCSTRING))
    "target_job_description" = 2 /\
  count_occ string_dec (fields_of (markup_iter InText PROMPT_DOCSTRING))
    "raw_career_data" <> 1.
Proof. vm_compute. repeat split; try reflexivity. discriminate. Qed.

(** C6, amended.  [build_prompt] binds each of the four named slots once,
    in a single call of [format]; the template refers to [raw_career_data],
    [target_job_description] and [user_name] twice each and to
    [user_name_lower] once, and every field it refers to is bound. *)
Theorem build_prompt_binds_each_slot_once (r j n : string) :
  map fst (build_prompt_kwargs r j n) = slot_names /\
  NoDup slot_names /\
  fields_of (markup_iter InText PROMPT_DOCSTRING) =
    ["raw_career_data"; "target_job_description"; "user_name";
     "target_job_description"; "raw_career_data"; "user_name";
     "user_name_lower"] /\
  Forall (fun f => exists v, lookup f (build_prompt_kwargs r j n) = Some v)
    (fields_of (markup_iter InText PROMPT_DOCSTRING)).
Proof.
  assert (Hf : fields_of (markup_iter InText PROMPT_DOCSTRING) =
    ["raw_career_data"; "target_job_description"; "user_name";
     "target_job_description"; "raw_career_data"; "user_name";
     "user_name_lower"]) by (vm_compute; reflexivity).
  split; [reflexivity|]. split; [|split; [exact Hf|]].
  - unfold slot_names.
    repeat (constructor; [simpl; intuition discriminate|]). constructor.
  - rewrite Hf. repeat (constructor; [eexists; reflexivity|]). constructor.
Qed.

(** C8.  [build_prompt] returns a composed prompt for every three strings,
    the empty ones and those made of braces among them. *)
Theorem build_prompt_total (r j n : string) :
  exists p, build_prompt r j n = Return p.
Proof. eexists. apply build_prompt_composed. Qed.

(** C10.  Substitution is a single pass: a value handed to [format] comes
    out as it went in, whatever braces it holds, and [build_prompt] returns
    the template with each field replaced by the very string that was
    passed for it. *)
Theorem build_prompt_single_pass :
  (forall v, str_format "{user_name}" [("user_name", v)] = Return v) /\
  (forall r j n,
     build_prompt r j n =
     Return (compose_prompt (escape_braces r) (escape_braces j) n (user_name_lower n))) /\
  (forall r j,
     build_prompt r j "{raw_career_data}" =
     Return (compose_prompt (escape_braces r) (escape_braces j)
               "{raw_career_data}" "{raw_career_data}")).
Proof.
  split; [|split].
  - intros v. unfold str_format.
    change (markup_iter InText "{user_name}") with [Field "user_name"].
    rewrite (render_field _ _ v) by reflexivity.
    cbn [render bind]. now rewrite append_empty_right.
  - apply build_prompt_composed.
  - intros r j. apply build_prompt_composed.
Qed.

(** ** The completion client *)

Lemma response_text_first (resp v : pyval) :
  path_mapping resp = Return v -> response_text resp = Return v.
Proof. intros H. unfold response_text. now rewrite H. Qed.

Lemma response_text_second (resp v : pyval) (e : pyexc) :
  path_mapping resp = Raise e -> path_attribute resp = Return v ->
  response_text resp = Return v.
Proof. intros H1 H2. unfold response_text. now rewrite H1, H2. Qed.

Lemma response_text_third (resp v : pyval) (e1 e2 : pyexc) :
  path_mapping resp = Raise e1 -> path_attribute resp = Raise e2 ->
  path_legacy resp = Return v ->
  response_text resp = Return v.
Proof. intros H1 H2 H3. unfold response_text. now rewrite H1, H2, H3. Qed.

Lemma response_text_none (resp : pyval) (e1 e2 e3 : pyexc) :
  path_mapping resp = Raise e1 -> path_attribute resp = Raise e2 ->
  path_legacy resp = Raise e3 ->
  response_text resp =
  Raise (PyExc RuntimeError [PyStr unexpected_structure] (Some e3)).
Proof. intros H1 H2 H3. unfold response_text. now rewrite H1, H2, H3. Qed.

(** [response_text] raises only when the three paths raise. *)
Lemma response_text_raises (resp : pyval) (e : pyexc) :
  response_text resp = Raise e ->
  exists e1 e2 e3,
    path_mapping resp = Raise e1 /\ path_attribute resp = Raise e2 /\
    path_legacy resp = Raise e3.
Proof.
  unfold response_text, try_except.
  destruct (path_mapping resp) as [v1|e1|]; try discriminate.
  destruct (path_attribute resp) as [v2|e2|]; try discriminate.
  destruct (path_legacy resp) as [v3|e3|]; try discriminate.
  intros _. now exists e1, e2, e3.
Qed.

Lemma call_openai_chat_response (create : request -> outcome pyval)
    (prompt model : string) (temperature : Q) (max_tokens : Z) (resp : pyval) :
  create (chat_request prompt model temperature max_tokens) = Return resp ->
  call_openai_chat create prompt model temperature max_tokens = response_text resp.
Proof.
  intros H. unfold call_openai_chat. now rewrite H.
Qed.

(** C3, counterexample.  On the empty mapping all three paths raise, and
    the error raised holds the fixed message and, as its cause, the
    [KeyError] of the last path; the response is in neither. *)
Lemma call_openai_chat_error_without_response :
  exists e cause,
    call_openai_chat (fun _ => Return (PyDict [])) "prompt" "model" 0%Q 1200%Z =
    Raise e /\
    e = PyExc RuntimeError [PyStr "Unexpected OpenAI response structure"] (Some cause) /\
    cause = PyExc KeyError [PyStr "choices"] None /\
    ~ In (PyDict []) (exc_args e) /\
    exc_cause e = Some cause /\
    ~ In (PyDict []) (exc_args cause).
Proof.
  do 2 eexists. split; [reflexivity|].
  split; [reflexivity|]. split; [reflexivity|].
  split; [|split; [reflexivity|]]; simpl; intros [H|[]]; discriminate H.
Qed.

(** C3, amended.  When the service answers [resp], [call_openai_chat]
    returns what the mapping path yields, else what the attribute path
    yields, else what the legacy path yields (so a response with the legacy
    text only gives that text); when all three paths raise it raises a
    [RuntimeError] whose only argument is the fixed message and whose cause
    is the exception of the legacy path. *)
Theorem call_openai_chat_fallback_order (create : request -> outcome pyval)
    (prompt model : string) (temperature : Q) (max_tokens : Z) (resp : pyval) :
  create (chat_request prompt model temperature max_tokens) = Return resp ->
  (forall v, path_mapping resp = Return v ->
     call_openai_chat create prompt model temperature max_tokens = Return v) /\
  (forall e1 v, path_mapping resp = Raise e1 -> path_attribute resp = Return v ->
     call_openai_chat create prompt model temperature max_tokens = Return v) /\
  (forall e1 e2 v,
     path_mapping resp = Raise e1 -> path_attribute resp = Raise e2 ->
     path_legacy resp = Return v ->
     call_openai_chat create prompt model temperature max_tokens = Return v) /\
  (forall e1 e2 e3,
     path_mapping resp = Raise e1 -> path_attribute resp = Raise e2 ->
     path_legacy resp = Raise e3 ->
     call_openai_chat create prompt model temperature max_tokens =
     Raise (PyExc RuntimeError [PyStr unexpected_structure] (Some e3))).
Proof.
  intros Hc. rewrite (call_openai_chat_response _ _ _ _ _ _ Hc).
  repeat split; intros.
  - now apply response_text_first.
  - eapply response_text_second; eassumption.
  - eapply response_text_third; eassumption.
  - eapply response_text_none; eassumption.
Qed.

(** The theorem on a legacy response, a typed object, a mapping, and a
    response that supports no path. *)
Lemma call_openai_chat_fallback_order_witness :
  call_openai_chat (fun _ => Return (legacy_response (PyStr "RESUME TEXT")))
    "prompt" "model" 0%Q 1200%Z = Return (PyStr "RESUME TEXT") /\
  call_openai_chat (fun _ => Return (typed_response (PyStr "RESUME TEXT")))
    "prompt" "model" 0%Q 1200%Z = Return (PyStr "RESUME TEXT") /\
  call_openai_chat (fun _ => Return (mapping_response (PyStr "RESUME TEXT")))
    "prompt" "model" 0%Q 1200%Z = Return (PyStr "RESUME TEXT") /\
  call_openai_chat (fun _ => Return (PyList []))
    "prompt" "model" 0%Q 1200%Z =
  Raise (PyExc RuntimeError [PyStr unexpected_structure]
           (Some (PyExc TypeError
                    [PyStr "list indices must be integers or slices, not str"] None))).
Proof.
  split; [|split; [|split]].
  - refine (proj1 (proj2 (proj2
      (call_openai_chat_fallback_order
         (fun _ => Return (legacy_response (PyStr "RESUME TEXT")))
         "prompt" "model" 0%Q 1200%Z _ eq_refl))) _ _ _ eq_refl eq_refl eq_refl).
  - refine (proj1 (proj2
      (call_openai_chat_fallback_order
         (fun _ => Return (typed_response (PyStr "RESUME TEXT")))
         "prompt" "model" 0%Q 1200%Z _ eq_refl)) _ _ eq_refl eq_refl).
  - refine (proj1
      (call_openai_chat_fallback_order
         (fun _ => Return (mapping_response (PyStr "RESUME TEXT")))
         "prompt" "model" 0%Q 1200%Z _ eq_refl) _ eq_refl).
  - refine (proj2 (proj2 (proj2
      (call_openai_chat_fallback_order
         (fun _ => Return (PyList []))
         "prompt" "model" 0%Q 1200%Z _ eq_refl))) _ _ _ eq_refl eq_refl eq_refl).
Defined.

(** ** [main] and the exit codes *)

(** [main] once the key is configured, the inputs are read and the prompt
    is built. *)
Lemma main_after_prompt (environ : list (string * string))
    (open_read : string -> outcome string) (create : request -> outcome pyval)
    (exc_str : pyexc -> string) (args : namespace) (raw jd prompt : string) :
  given (configured_api_key environ args) = true ->
  read_file_or_default open_read exc_str (raw_file args) _RAW_SAMPLE = Return raw ->
  read_file_or_default open_read exc_str (jd_file args) _JD_SAMPLE = Return jd ->
  build_prompt raw jd (name args) = Return prompt ->
  main environ open_read create exc_str args =
  match call_openai_chat create prompt (model args) 0%Q (max_tokens args) with
  | Raise _ => Return ("", 3%Z)
  | Return assistant_text =>
      out <- stdout_write (if truthy assistant_text then assistant_text else PyStr "") ;;
      Return (out, 0%Z)
  | Unmodelled => Unmodelled
  end.
Proof.
  intros Hk Hr Hj Hp. unfold main.
  rewrite Hk, Hr, bind_Return, Hj, bind_Return, Hp, bind_Return.
  reflexivity.
Qed.

Lemma given_configured_api_key (environ : list (string * string)) (args : namespace) :
  given (configured_api_key environ args) =
  given (api_key args) || given (lookup "OPENAI_API_KEY" environ).
Proof.
  unfold configured_api_key.
  destruct (given (api_key args)) eqn:E; [exact E | reflexivity].
Qed.

(** C7, counterexample.  A response whose content is [None] yields no
    text, yet the client returns ([None]) instead of raising, and [main]
    turns it into empty output with exit code 0. *)
Lemma none_content_becomes_empty_output :
  call_openai_chat (fun _ => Return (mapping_response PyNone))
    "prompt" "model" 0%Q 1200%Z = Return PyNone /\
  main [("OPENAI_API_KEY", "sk-test")] no_file
    (fun _ => Return (mapping_response PyNone)) no_exc_str default_args =
  Return ("", 0%Z).
Proof. split; vm_compute; reflexivity. Qed.

(** C7, amended.  [call_openai_chat] raises exactly when the service call
    raises or all three access paths raise on its response; a path that
    yields a value counts as a success whatever the value is, and when the
    value returned is false in Python (such as [None]) [main] writes the
    empty string and returns 0. *)
Theorem call_openai_chat_raises_iff :
  (forall (create : request -> outcome pyval) (prompt model : string)
          (temperature : Q) (max_tokens : Z),
     (exists e, call_openai_chat create prompt model temperature max_tokens = Raise e) <->
     ((exists e, create (chat_request prompt model temperature max_tokens) = Raise e) \/
      (exists resp e1 e2 e3,
         create (chat_request prompt model temperature max_tokens) = Return resp /\
         path_mapping resp = Raise e1 /\ path_attribute resp = Raise e2 /\
         path_legacy resp = Raise e3))) /\
  (forall (environ : list (string * string)) (open_read : string -> outcome string)
          (create : request -> outcome pyval) (exc_str : pyexc -> string)
          (args : namespace) (raw jd prompt : string) (v : pyval),
     given (configured_api_key environ args) = true ->
     read_file_or_default open_read exc_str (raw_file args) _RAW_SAMPLE = Return raw ->
     read_file_or_default open_read exc_str (jd_file args) _JD_SAMPLE = Return jd ->
     build_prompt raw jd (name args) = Return prompt ->
     call_openai_chat create prompt (model args) 0%Q (max_tokens args) = Return v ->
     truthy v = false ->
     main environ open_read create exc_str args = Return ("", 0%Z)).
Proof.
  split.
  - intros create prompt model0 temperature max_tokens0.
    unfold call_openai_chat.
    destruct (create (chat_request prompt model0 temperature max_tokens0))
      as [resp|e0|] eqn:Hc; cbn [bind]; split.
    + intros [e He]. right.
      destruct (response_text_raises _ _ He) as (e1 & e2 & e3 & H1 & H2 & H3).
      now exists resp, e1, e2, e3.
    + intros [[e He]|(resp' & e1 & e2 & e3 & Hr & H1 & H2 & H3)].
      * discriminate He.
      * injection Hr as <-. eexists. eapply response_text_none; eassumption.
    + intros _. left. now exists e0.
    + intros _. now exists e0.
    + intros [e He]. discriminate He.
    + intros [[e He]|(resp' & e1 & e2 & e3 & Hr & _)]; discriminate.
  - intros environ open_read create exc_str args raw jd prompt v Hk Hr Hj Hp Hcall Hv.
    rewrite (main_after_prompt _ _ _ _ _ _ _ _ Hk Hr Hj Hp), Hcall, Hv.
    reflexivity.
Qed.

(** The theorem on a response of [None], where every path raises, and on
    a run whose response holds the empty text. *)
Lemma call_openai_chat_raises_iff_witness :
  (exists e, call_openai_chat (fun _ => Return PyNone) "prompt" "model" 0%Q 1200%Z = Raise e) /\
  main [("OPENAI_API_KEY", "sk-test")] no_file
    (fun _ => Return (mapping_response (PyStr ""))) no_exc_str default_args =
  Return ("", 0%Z).
Proof.
  split.
  - apply (proj2 (proj1 call_openai_chat_raises_iff
                    (fun _ => Return PyNone) "prompt" "model" 0%Q 1200%Z)).
    right. eexists PyNone, _, _, _. repeat split; reflexivity.
  - refine (proj2 call_openai_chat_raises_iff
              [("OPENAI_API_KEY", "sk-test")] no_file
              (fun _ => Return (mapping_response (PyStr ""))) no_exc_str default_args
              _RAW_SAMPLE _JD_SAMPLE _ (PyStr "")
              eq_refl eq_refl eq_refl (build_prompt_composed _ _ _) eq_refl eq_refl).
Defined.

(** C9.  [main] returns 2 when neither the command line nor the
    environment gives a key; with a key, its inputs read and the prompt
    built, it returns 3 when [call_openai_chat] raises and 0, after writing
    the text, when it returns a text; and 0, 2 and 3 are the only codes
    [main] returns. *)
Theorem main_exit_codes (environ : list (string * string))
    (open_read : string -> outcome string) (create : request -> outcome pyval)
    (exc_str : pyexc -> string) (args : namespace) :
  (given (api_key args) = false ->
   given (lookup "OPENAI_API_KEY" environ) = false ->
   main environ open_read create exc_str args = Return ("", 2%Z)) /\
  (forall raw jd prompt,
     given (configured_api_key environ args) = true ->
     read_file_or_default open_read exc_str (raw_file args) _RAW_SAMPLE = Return raw ->
     read_file_or_default open_read exc_str (jd_file args) _JD_SAMPLE = Return jd ->
     build_prompt raw jd (name args) = Return prompt ->
     (forall e,
        call_openai_chat create prompt (model args) 0%Q (max_tokens args) = Raise e ->
        main environ open_read create exc_str args = Return ("", 3%Z)) /\
     (forall text,
        call_openai_chat create prompt (model args) 0%Q (max_tokens args) =
        Return (PyStr text) ->
        main environ open_read create exc_str args = Return (text, 0%Z))) /\
  (forall out code,
     main environ open_read create exc_str args = Return (out, code) ->
     code = 0%Z \/ code = 2%Z \/ code = 3%Z).
Proof.
  split; [|split].
  - intros Ha He. unfold main.
    rewrite given_configured_api_key, Ha, He. reflexivity.
  - intros raw jd prompt Hk Hr Hj Hp.
    rewrite (main_after_prompt _ _ _ _ _ _ _ _ Hk Hr Hj Hp).
    split.
    + intros e ->. reflexivity.
    + intros text ->. cbn [truthy].
      destruct (String.eqb text "") eqn:E; cbn [negb stdout_write bind].
      * apply String.eqb_eq in E. now subst text.
      * reflexivity.
  - intros out code. unfold main, bind.
    destruct (negb (given (configured_api_key environ args))).
    { intros H. injection H as _ <-. auto. }
    destruct (read_file_or_default open_read exc_str (raw_file args) _RAW_SAMPLE)
      as [raw| |]; [|discriminate|discriminate].
    destruct (read_file_or_default open_read exc_str (jd_file args) _JD_SAMPLE)
      as [jd| |]; [|discriminate|discriminate].
    destruct (build_prompt raw jd (name args)) as [prompt| |];
      [|discriminate|discriminate].
    destruct (call_openai_chat create prompt (model args) 0%Q (max_tokens args))
      as [t|e|]; [| |discriminate].
    + destruct (stdout_write (if truthy t then t else PyStr "")) as [o| |];
        [|discriminate|discriminate].
      intros H. injection H as _ <-. auto.
    + intros H. injection H as _ <-. auto.
Qed.

(** The theorem on three runs with the default command line: no key, a
    failing service, and a service that answers with a text. *)
Lemma main_exit_codes_witness :
  main [] no_file (fun _ => Return (mapping_response (PyStr "RESUME TEXT")))
    no_exc_str default_args = Return ("", 2%Z) /\
  main [("OPENAI_API_KEY", "sk-test")] no_file
    (fun _ => Raise (PyExc (OtherError "RateLimitError") [] None))
    no_exc_str default_args = Return ("", 3%Z) /\
  main [("OPENAI_API_KEY", "sk-test")] no_file
    (fun _ => Return (mapping_response (PyStr "RESUME TEXT")))
    no_exc_str default_args = Return ("RESUME TEXT", 0%Z) /\
  (0 = 0 \/ 0 = 2 \/ 0 = 3)%Z.
Proof.
  split; [|split; [|split]].
  - apply (proj1 (main_exit_codes [] no_file
             (fun _ => Return (mapping_response (PyStr "RESUME TEXT")))
             no_exc_str default_args)); reflexivity.
  - refine (proj1 (proj1 (proj2 (main_exit_codes [("OPENAI_API_KEY", "sk-test")] no_file
             (fun _ => Raise (PyExc (OtherError "RateLimitError") [] None))
             no_exc_str default_args))
             _RAW_SAMPLE _JD_SAMPLE _ eq_refl eq_refl eq_refl
             (build_prompt_composed _ _ _)) _ eq_refl).
  - refine (proj2 (proj1 (proj2 (main_exit_codes [("OPENAI_API_KEY", "sk-test")] no_file
             (fun _ => Return (mapping_response (PyStr "RESUME TEXT")))
             no_exc_str default_args))
             _RAW_SAMPLE _JD_SAMPLE _ eq_refl eq_refl eq_refl
             (build_prompt_composed _ _ _)) _ eq_refl).
  - apply (proj2 (proj2 (main_exit_codes [("OPENAI_API_KEY", "sk-test")] no_file
             (fun _ => Return (mapping_response (PyStr "RESUME TEXT")))
             no_exc_str default_args)) "RESUME TEXT").
    vm_compute. reflexivity.
Defined.

(** ** Further properties of the prompt builder *)

Lemma append_assoc (a b c : string) : (a ++ b) ++ c = a ++ b ++ c.
Proof. induction a as [|x a IH]; simpl; [reflexivity | now rewrite IH]. Qed.

Lemma count_char_zero (c : ascii) (s : string) :
  count_char c s = 0 -> mem_char c s = false.
Proof.
  induction s as [|a s IH]; simpl; [reflexivity|].
  destruct (Ascii.eqb a c); simpl; [discriminate | exact IH].
Qed.

(** Character by character, [escape_braces] doubles a brace and keeps any
    other character. *)
Lemma escape_braces_cons (c : ascii) (s : string) :
  escape_braces (String c s) =
  (if Ascii.eqb c "{" then "{{"
   else if Ascii.eqb c "}" then "}}"
   else String c "") ++ escape_braces s.
Proof.
  rewrite !escape_braces_replace_char. cbn [replace_char].
  rewrite (Ascii.eqb_sym "{" c).
  destruct (Ascii.eqb c "{") eqn:E1.
  - apply Ascii.eqb_eq in E1. subst c. reflexivity.
  - cbn [replace_char]. rewrite (Ascii.eqb_sym "}" c).
    destruct (Ascii.eqb c "}"); reflexivity.
Qed.

Lemma escape_braces_fixed (s : string) :
  mem_char "{" s = false -> mem_char "}" s = false -> escape_braces s = s.
Proof.
  intros Ho Hc. rewrite escape_braces_replace_char.
  rewrite (replace_char_absent _ _ _ Ho). now apply replace_char_absent.
Qed.

Lemma markup_iter_escaped (s : string) :
  markup_iter InText (escape_braces s) = literals s.
Proof.
  induction s as [|c s IH]; [reflexivity|].
  rewrite escape_braces_cons. unfold literals. cbn [list_ascii_of_string map].
  fold (literals s). rewrite <- IH.
  destruct (Ascii.eqb c "{") eqn:E1.
  - apply Ascii.eqb_eq in E1. subst c. reflexivity.
  - destruct (Ascii.eqb c "}") eqn:E2.
    + apply Ascii.eqb_eq in E2. subst c. reflexivity.
    + cbn [append markup_iter]. now rewrite E1, E2.
Qed.

(** X1.  Escaping is the inverse of formatting: an escaped text, used as a
    format string with any keyword arguments, renders to the text itself;
    so escaping loses nothing. *)
Theorem format_escape_braces_round_trip :
  (forall (s : string) (kw : kwargs), str_format (escape_braces s) kw = Return s) /\
  (forall a b, escape_braces a = escape_braces b -> a = b).
Proof.
  assert (H : forall (s : string) (kw : kwargs),
             str_format (escape_braces s) kw = Return s).
  { intros s kw. unfold str_format. rewrite markup_iter_escaped.
    rewrite <- (app_nil_r (literals s)), render_literals.
    cbn [render bind]. now rewrite append_empty_right. }
  split; [exact H|].
  intros a b Hab.
  assert (Hr : Return a = Return b).
  { rewrite <- (H a []), <- (H b []). now rewrite Hab. }
  now injection Hr.
Qed.

Lemma format_escape_braces_round_trip_witness :
  str_format (escape_braces "worked on {fake} stuff") [] = Return "worked on {fake} stuff" /\
  "a{b}" = "a{b}".
Proof.
  split.
  - apply (proj1 format_escape_braces_round_trip).
  - apply (proj2 format_escape_braces_round_trip "a{b}" "a{b}"). reflexivity.
Defined.

(** X2.  Escaping leaves a text unchanged exactly when the text holds no
    brace. *)
Theorem escape_braces_fixed_iff (s : string) :
  escape_braces s = s <-> mem_char "{" s = false /\ mem_char "}" s = false.
Proof.
  split.
  - intros H.
    assert (Ho : count_char "{" (escape_braces s) = 2 * count_char "{" s).
    { rewrite escape_braces_replace_char.
      rewrite count_char_doubled_other by reflexivity. apply count_char_doubled. }
    assert (Hc : count_char "}" (escape_braces s) = 2 * count_char "}" s).
    { rewrite escape_braces_replace_char, count_char_doubled.
      now rewrite count_char_doubled_other by reflexivity. }
    rewrite H in Ho, Hc.
    split; apply count_char_zero; lia.
  - intros [Ho Hc]. now apply escape_braces_fixed.
Qed.

Lemma escape_braces_fixed_iff_witness :
  mem_char "{" "Need SQL skills" = false /\ mem_char "}" "Need SQL skills" = false.
Proof.
  apply (proj1 (escape_braces_fixed_iff "Need SQL skills")). reflexivity.
Defined.

(** X3.  Deriving the handle is idempotent: the handle of a handle is the
    handle. *)
Theorem user_name_lower_idempotent (n : string) :
  user_name_lower (user_name_lower n) = user_name_lower n.
Proof.
  induction n as [|c n IH]; [reflexivity|].
  rewrite user_name_lower_cons.
  destruct (Ascii.eqb c " ") eqn:E; [exact IH|].
  rewrite user_name_lower_cons, lower_ascii_is_space, E.
  now rewrite lower_ascii_idempotent, IH.
Qed.

Lemma str_lower_handle_app (a b : string) :
  user_name_lower (a ++ b) = user_name_lower a ++ user_name_lower b.
Proof.
  induction a as [|c a IH]; [reflexivity|].
  cbn [append]. rewrite !user_name_lower_cons.
  destruct (Ascii.eqb c " "); [exact IH|].
  cbn [append]. now rewrite IH.
Qed.

Lemma is_ascii_app (a b : string) :
  is_ascii a = true -> is_ascii b = true -> is_ascii (a ++ b) = true.
Proof.
  unfold is_ascii. intros Ha Hb.
  induction a as [|c a IH]; [exact Hb|].
  cbn [append forall_chars] in *.
  apply andb_true_iff in Ha. destruct Ha as [Hc Ha].
  now rewrite Hc, IH.
Qed.

(** X4.  For ASCII names, the handle of a name made of two parts is the
    handle of the first part followed by the handle of the second. *)
Theorem user_name_lower_app (lower : string -> string) (a b : string) :
  lowers_ascii lower ->
  is_ascii a = true ->
  is_ascii b = true ->
  user_name_lower_with lower (a ++ b) =
  user_name_lower_with lower a ++ user_name_lower_with lower b.
Proof.
  intros Hl Ha Hb.
  rewrite !(user_name_lower_with_ascii lower) by auto using is_ascii_app.
  apply str_lower_handle_app.
Qed.

Lemma user_name_lower_app_witness :
  user_name_lower_with str_lower ("Jo " ++ "Lee") =
  user_name_lower_with str_lower "Jo " ++ user_name_lower_with str_lower "Lee".
Proof.
  apply (user_name_lower_app str_lower "Jo " "Lee");
    [intros s _; reflexivity | reflexivity | reflexivity].
Defined.

Lemma str_lower_handle_chars (n : string) :
  forall_chars (fun c => negb (is_upper c) && negb (Ascii.eqb c " "))
    (user_name_lower n) = true /\
  String.length (user_name_lower n) <= String.length n.
Proof.
  induction n as [|c n [IH1 IH2]]; [split; [reflexivity | simpl; lia]|].
  rewrite user_name_lower_cons.
  destruct (Ascii.eqb c " ") eqn:E.
  - split; [exact IH1 | simpl; lia].
  - split; [|simpl; lia].
    cbn [forall_chars].
    now rewrite lower_ascii_not_upper, lower_ascii_is_space, E, IH1.
Qed.

(** X5.  The handle of an ASCII name holds no upper-case letter and no
    space, and is never longer than the name. *)
Theorem user_name_lower_chars (lower : string -> string) (n : string) :
  lowers_ascii lower ->
  is_ascii n = true ->
  forall_chars (fun c => negb (is_upper c) && negb (Ascii.eqb c " "))
    (user_name_lower_with lower n) = true /\
  String.length (user_name_lower_with lower n) <= String.length n.
Proof.
  intros Hl Hn. rewrite (user_name_lower_with_ascii lower n Hl Hn).
  apply str_lower_handle_chars.
Qed.

Lemma user_name_lower_chars_witness :
  forall_chars (fun c => negb (is_upper c) && negb (Ascii.eqb c " "))
    (user_name_lower_with str_lower "McKinsey O'Neil") = true /\
  String.length (user_name_lower_with str_lower "McKinsey O'Neil") <=
  String.length "McKinsey O'Neil".
Proof.
  apply (user_name_lower_chars str_lower "McKinsey O'Neil");
    [intros s _; reflexivity | reflexivity].
Defined.

Lemma startswith_app (sub t : string) : startswith sub (sub ++ t) = true.
Proof.
  induction sub as [|c sub IH]; [reflexivity|].
  simpl. now rewrite Ascii.eqb_refl, IH.
Qed.

Lemma contains_infix (pre sub post : string) :
  contains sub (pre ++ sub ++ post) = true.
Proof.
  induction pre as [|c pre IH].
  - cbn [append]. destruct (sub ++ post) eqn:E;
      cbn [contains]; rewrite <- E, startswith_app; reflexivity.
  - cbn [append contains]. rewrite IH. apply orb_true_r.
Qed.

(** X6.  For every input the composed prompt holds the contact line of the
    template filled in: the name as given, followed by the placeholder
    address built from the handle. *)
Theorem build_prompt_contact_line (r j n : string) :
  exists p,
    build_prompt r j n = Return p /\
    contains (n ++ " (Full Name), placeholder email: " ++ user_name_lower n ++
              "@example.com, phone placeholder: +91-XXXXXXXXXX") p = true.
Proof.
  eexists. split; [apply build_prompt_composed|].
  unfold compose_prompt.
  set (sub := n ++ " (Full Name), placeholder email: " ++ user_name_lower n ++
              "@example.com, phone placeholder: +91-XXXXXXXXXX").
  set (tail := String.substring 47 (String.length prompt_text_7 - 47) prompt_text_7).
  assert (H7 : prompt_text_7 =
               "@example.com, phone placeholder: +91-XXXXXXXXXX" ++ tail)
    by (vm_compute; reflexivity).
  assert (H6 : prompt_text_6 = " (Full Name), placeholder email: ") by reflexivity.
  rewrite H7, H6.
  set (pre := prompt_text_0 ++ escape_braces r ++ prompt_text_1 ++ escape_braces j ++
              prompt_text_2 ++ n ++ prompt_text_3 ++ escape_braces j ++
              prompt_text_4 ++ escape_braces r ++ prompt_text_5).
  replace (prompt_text_0 ++ escape_braces r ++ prompt_text_1 ++ escape_braces j ++
           prompt_text_2 ++ n ++ prompt_text_3 ++ escape_braces j ++
           prompt_text_4 ++ escape_braces r ++ prompt_text_5 ++ n ++
           " (Full Name), placeholder email: " ++ user_name_lower n ++
           "@example.com, phone placeholder: +91-XXXXXXXXXX" ++ tail)
    with (pre ++ sub ++ tail).
  - apply contains_infix.
  - unfold pre, sub. now rewrite !append_assoc.
Qed.

(** X7.  A career text and a job description without braces reach the
    composed prompt as they are. *)
Theorem build_prompt_verbatim (r j n : string) :
  mem_char "{" r = false -> mem_char "}" r = false ->
  mem_char "{" j = false -> mem_char "}" j = false ->
  build_prompt r j n = Return (compose_prompt r j n (user_name_lower n)).
Proof.
  intros Hr1 Hr2 Hj1 Hj2. rewrite build_prompt_composed.
  now rewrite (escape_braces_fixed r), (escape_braces_fixed j).
Qed.

Lemma build_prompt_verbatim_witness :
  build_prompt _RAW_SAMPLE _JD_SAMPLE "Alex Morgan" =
  Return (compose_prompt _RAW_SAMPLE _JD_SAMPLE "Alex Morgan" "alexmorgan").
Proof.
  apply (build_prompt_verbatim _RAW_SAMPLE _JD_SAMPLE "Alex Morgan"); reflexivity.
Defined.

(** ** Further properties of the completion client *)

Lemma bind_Return_inv {A B : Type} (c : outcome A) (k : A -> outcome B) (b : B) :
  bind c k = Return b <-> exists a, c = Return a /\ k a = Return b.
Proof.
  split.
  - destruct c as [a| |]; cbn [bind]; try discriminate. intros H. now exists a.
  - intros (a & -> & H). exact H.
Qed.

Lemma bind_modelled {A B : Type} (c : outcome A) (k : A -> outcome B) :
  c <> Unmodelled -> (forall a, k a <> Unmodelled) -> bind c k <> Unmodelled.
Proof.
  intros Hc Hk. destruct c as [a|e|]; cbn [bind];
    [apply Hk | discriminate | now contradiction Hc].
Qed.

Lemma getitem_modelled (v : pyval) (k : pykey) : getitem v k <> Unmodelled.
Proof.
  destruct v, k; cbn [getitem]; try discriminate;
    match goal with
    | |- context [lookup ?s ?d] => destruct (lookup s d); discriminate
    | |- context [py_index ?l ?z] => destruct (py_index l z); discriminate
    end.
Qed.

Lemma getattr_modelled (v : pyval) (n : string) : getattr v n <> Unmodelled.
Proof.
  destruct v; cbn [getattr]; try discriminate;
    match goal with
    | |- context [lookup ?s ?d] => destruct (lookup s d); discriminate
    end.
Qed.

Lemma paths_modelled (resp : pyval) :
  path_mapping resp <> Unmodelled /\ path_attribute resp <> Unmodelled /\
  path_legacy resp <> Unmodelled.
Proof.
  unfold path_mapping, path_attribute, path_legacy.
  repeat split;
    repeat (apply bind_modelled; [|intros ?]);
    auto using getitem_modelled, getattr_modelled.
Qed.

Lemma py_index_zero {A : Type} (l : list A) : py_index l 0 = hd_error l.
Proof.
  unfold py_index. destruct l as [|x l]; [reflexivity|].
  cbn [List.length]. rewrite Nat2Z.inj_succ.
  replace (0 <? 0)%Z with false by reflexivity.
  replace (0 <=? 0)%Z with true by reflexivity.
  cbn [andb].
  destruct (0 <? Z.succ (Z.of_nat (List.length l)))%Z eqn:E; [reflexivity|].
  apply Z.ltb_ge in E. lia.
Qed.

(** A string subscript succeeds on mappings only, with the entry stored
    under the key. *)
Lemma getitem_str_inv (v x : pyval) (k : string) :
  getitem v (KStr k) = Return x <->
  exists d, mapping_entries v = Some d /\ lookup k d = Some x.
Proof.
  split.
  - destruct v; cbn [getitem mapping_entries]; try discriminate;
      (destruct (lookup k entries) as [y|] eqn:E; [|discriminate]);
      intros H; injection H as <-; now exists entries.
  - intros (d & Hm & Hl).
    destruct v; cbn [mapping_entries] in Hm; try discriminate;
      injection Hm as ->; cbn [getitem]; now rewrite Hl.
Qed.

(** Subscript 0 followed by a string subscript succeeds on non-empty lists
    only. *)
Lemma getitem_first_inv (v first x : pyval) (k : string) :
  getitem v (KInt 0) = Return first -> getitem first (KStr k) = Return x ->
  exists items, v = PyList items /\ hd_error items = Some first.
Proof.
  intros H0 Hk.
  destruct v; cbn [getitem] in H0; try discriminate.
  - destruct (py_index (list_ascii_of_string s) 0) as [c|]; [|discriminate].
    injection H0 as <-. discriminate Hk.
  - rewrite py_index_zero in H0.
    destruct (hd_error items) as [y|] eqn:E; [|discriminate].
    injection H0 as <-. now exists items.
Qed.

(** X8.  Extraction has two outcomes only: it returns a value, or it raises
    a [RuntimeError] with the fixed message whose cause is the exception of
    the legacy path.  The [KeyError], [IndexError], [TypeError] or
    [AttributeError] of a failed path never leaves it. *)
Theorem response_text_outcome (resp : pyval) :
  (exists v, response_text resp = Return v) \/
  (exists cause,
     path_legacy resp = Raise cause /\
     response_text resp =
     Raise (PyExc RuntimeError [PyStr unexpected_structure] (Some cause))).
Proof.
  destruct (paths_modelled resp) as (H1 & H2 & H3).
  unfold response_text, try_except.
  destruct (path_mapping resp) as [v1|e1|]; [left; now exists v1 | | contradiction].
  destruct (path_attribute resp) as [v2|e2|]; [left; now exists v2 | | contradiction].
  destruct (path_legacy resp) as [v3|e3|]; [left; now exists v3 | | contradiction].
  right. now exists e3.
Qed.

(** X9.  The mapping path yields [v] exactly for a response that is a
    mapping whose [choices] entry is a non-empty list, whose first choice
    is a mapping with a [message] entry that is a mapping with [v] stored
    under [content]. *)
Theorem path_mapping_shape (resp v : pyval) :
  path_mapping resp = Return v <->
  exists d choices first dm msg dc,
    mapping_entries resp = Some d /\
    lookup "choices" d = Some (PyList choices) /\
    hd_error choices = Some first /\
    mapping_entries first = Some dm /\
    lookup "message" dm = Some msg /\
    mapping_entries msg = Some dc /\
    lookup "content" dc = Some v.
Proof.
  unfold path_mapping. split.
  - intros H.
    apply bind_Return_inv in H. destruct H as (c & Hc & H).
    apply bind_Return_inv in H. destruct H as (first & Hf & H).
    apply bind_Return_inv in H. destruct H as (msg & Hm & Hv).
    destruct (getitem_first_inv _ _ _ _ Hf Hm) as (items & -> & Hhd).
    apply getitem_str_inv in Hc. destruct Hc as (d & Hd & Hld).
    apply getitem_str_inv in Hm. destruct Hm as (dm & Hdm & Hlm).
    apply getitem_str_inv in Hv. destruct Hv as (dc & Hdc & Hlc).
    now exists d, items, first, dm, msg, dc.
  - intros (d & items & first & dm & msg & dc & Hd & Hld & Hhd & Hdm & Hlm & Hdc & Hlc).
    apply bind_Return_inv. exists (PyList items).
    split; [apply getitem_str_inv; now exists d|].
    apply bind_Return_inv. exists first.
    split; [cbn [getitem]; now rewrite py_index_zero, Hhd|].
    apply bind_Return_inv. exists msg.
    split; [apply getitem_str_inv; now exists dm|].
    apply getitem_str_inv. now exists dc.
Qed.

Lemma path_mapping_shape_witness :
  path_mapping (mapping_response (PyStr "RESUME TEXT")) = Return (PyStr "RESUME TEXT").
Proof.
  apply (proj2 (path_mapping_shape (mapping_response (PyStr "RESUME TEXT"))
                  (PyStr "RESUME TEXT"))).
  do 6 eexists. repeat split; reflexivity.
Defined.

(** X10.  A response whose [choices] is the empty list gives no text:
    whether it is a mapping, a legacy SDK object or a typed object,
    extraction raises the [RuntimeError] with the fixed message. *)
Theorem response_text_empty_choices (wrap : list (string * pyval) -> pyval)
    (d : list (string * pyval)) :
  In wrap [PyDict; PyOpenAIObject; PyObject] ->
  lookup "choices" d = Some (PyList []) ->
  exists cause,
    response_text (wrap d) =
    Raise (PyExc RuntimeError [PyStr unexpected_structure] (Some cause)).
Proof.
  intros Hw Hd. simpl in Hw.
  destruct Hw as [<-|[<-|[<-|[]]]]; eexists;
    unfold response_text, path_mapping, path_attribute, path_legacy;
    cbn [getitem getattr]; rewrite ?Hd; cbn; reflexivity.
Qed.

Lemma response_text_empty_choices_witness :
  exists cause,
    response_text (PyDict [("id", PyStr "cmpl-1"); ("choices", PyList [])]) =
    Raise (PyExc RuntimeError [PyStr unexpected_structure] (Some cause)).
Proof.
  apply (response_text_empty_choices PyDict
           [("id", PyStr "cmpl-1"); ("choices", PyList [])]).
  - simpl. auto.
  - reflexivity.
Defined.

(** X11.  Only the first choice is read: the choices after it do not
    change what extraction gives. *)
Theorem response_text_first_choice_only (wrap : list (string * pyval) -> pyval)
    (d : list (string * pyval)) (first : pyval) (rest : list pyval) :
  In wrap [PyDict; PyOpenAIObject; PyObject] ->
  lookup "choices" d = Some (PyList (first :: rest)) ->
  response_text (wrap d) = response_text (wrap [("choices", PyList [first])]).
Proof.
  intros Hw Hd. simpl in Hw.
  destruct Hw as [<-|[<-|[<-|[]]]];
    unfold response_text, path_mapping, path_attribute, path_legacy;
    cbn [getitem getattr bind lookup];
    rewrite ?Hd; reflexivity.
Qed.

Lemma response_text_first_choice_only_witness :
  response_text
    (PyDict [("choices",
              PyList [PyDict [("text", PyStr "first")]; PyDict [("text", PyStr "second")]])]) =
  response_text (PyDict [("choices", PyList [PyDict [("text", PyStr "first")]])]).
Proof.
  apply (response_text_first_choice_only PyDict
           [("choices",
             PyList [PyDict [("text", PyStr "first")]; PyDict [("text", PyStr "second")]])]
           (PyDict [("text", PyStr "first")]) [PyDict [("text", PyStr "second")]]).
  - simpl. auto.
  - reflexivity.
Defined.

(** ** Further properties of [main] *)

Lemma read_file_or_default_absent (open_read : string -> outcome string)
    (exc_str : pyexc -> string) (path : option string) (default : string) :
  given path = false ->
  read_file_or_default open_read exc_str path default = Return default.
Proof.
  unfold given, read_file_or_default.
  destruct path as [p|]; [|reflexivity].
  destruct (String.eqb p ""); [reflexivity | discriminate].
Qed.

Lemma read_file_or_default_failure (open_read : string -> outcome string)
    (exc_str : pyexc -> string) (p default : string) (e : pyexc) :
  p <> "" -> open_read p = Raise e ->
  read_file_or_default open_read exc_str (Some p) default =
  Raise (PyExc RuntimeError [PyStr ("Failed to read " ++ p ++ ": " ++ exc_str e)] (Some e)).
Proof.
  intros Hp He. unfold read_file_or_default.
  apply String.eqb_neq in Hp. now rewrite Hp, He.
Qed.

(** X12.  With a key configured, an input file that cannot be read makes
    [main] raise a [RuntimeError] that names the path and has the original
    exception as its cause, whatever the service would answer; the career
    file is read before the job description file. *)
Theorem main_unreadable_file (environ : list (string * string))
    (open_read : string -> outcome string) (create : request -> outcome pyval)
    (exc_str : pyexc -> string) (args : namespace) (p : string) (e : pyexc) :
  given (configured_api_key environ args) = true ->
  p <> "" ->
  open_read p = Raise e ->
  (raw_file args = Some p ->
   main environ open_read create exc_str args =
   Raise (PyExc RuntimeError
            [PyStr ("Failed to read " ++ p ++ ": " ++ exc_str e)] (Some e))) /\
  (forall raw,
     read_file_or_default open_read exc_str (raw_file args) _RAW_SAMPLE = Return raw ->
     jd_file args = Some p ->
     main environ open_read create exc_str args =
     Raise (PyExc RuntimeError
              [PyStr ("Failed to read " ++ p ++ ": " ++ exc_str e)] (Some e))).
Proof.
  intros Hk Hp He. split.
  - intros Hr. unfold main. rewrite Hk, Hr.
    now rewrite (read_file_or_default_failure _ _ _ _ _ Hp He).
  - intros raw Hraw Hj. unfold main. rewrite Hk, Hraw, bind_Return, Hj.
    now rewrite (read_file_or_default_failure _ _ _ _ _ Hp He).
Qed.

Lemma main_unreadable_file_witness :
  main [("OPENAI_API_KEY", "sk-test")] no_file
    (fun _ => Return (mapping_response (PyStr "RESUME TEXT"))) no_exc_str
    {| raw_file := Some "career.txt"; jd_file := Some "jd.txt"; name := "Jo Lee";
       model := "gpt-5-thinking-mini"; api_key := None; max_tokens := 1200 |} =
  Raise (PyExc RuntimeError [PyStr "Failed to read career.txt: "]
           (Some (PyExc (OtherError "FileNotFoundError") [PyStr "career.txt"] None))).
Proof.
  refine (proj1 (main_unreadable_file [("OPENAI_API_KEY", "sk-test")] no_file
                   (fun _ => Return (mapping_response (PyStr "RESUME TEXT"))) no_exc_str
                   {| raw_file := Some "career.txt"; jd_file := Some "jd.txt";
                      name := "Jo Lee"; model := "gpt-5-thinking-mini";
                      api_key := None; max_tokens := 1200 |}
                   "career.txt"
                   (PyExc (OtherError "FileNotFoundError") [PyStr "career.txt"] None)
                   eq_refl _ eq_refl) eq_refl).
  discriminate.
Defined.

(** X13.  The request that decides a run of [main] is made of the composed
    prompt as a single system message, the model of the command line,
    temperature 0 and the token limit of the command line: two services
    that answer this request alike give the same run, whatever they answer
    to any other request. *)
Theorem main_single_request (environ : list (string * string))
    (open_read : string -> outcome string) (create1 create2 : request -> outcome pyval)
    (exc_str : pyexc -> string) (args : namespace) (raw jd : string) :
  read_file_or_default open_read exc_str (raw_file args) _RAW_SAMPLE = Return raw ->
  read_file_or_default open_read exc_str (jd_file args) _JD_SAMPLE = Return jd ->
  create1 (chat_request
             (compose_prompt (escape_braces raw) (escape_braces jd) (name args)
                (user_name_lower (name args)))
             (model args) 0%Q (max_tokens args)) =
  create2 (chat_request
             (compose_prompt (escape_braces raw) (escape_braces jd) (name args)
                (user_name_lower (name args)))
             (model args) 0%Q (max_tokens args)) ->
  main environ open_read create1 exc_str args =
  main environ open_read create2 exc_str args.
Proof.
  intros Hr Hj Hc. unfold main.
  destruct (negb (given (configured_api_key environ args))); [reflexivity|].
  rewrite Hr, bind_Return, Hj, bind_Return, build_prompt_composed, bind_Return.
  unfold call_openai_chat. now rewrite Hc.
Qed.

Lemma main_single_request_witness :
  main [("OPENAI_API_KEY", "sk-test")] no_file
    (fun _ => Return (mapping_response (PyStr "RESUME TEXT"))) no_exc_str default_args =
  main [("OPENAI_API_KEY", "sk-test")] no_file one_model_service no_exc_str default_args.
Proof.
  apply (main_single_request [("OPENAI_API_KEY", "sk-test")] no_file
           (fun _ => Return (mapping_response (PyStr "RESUME TEXT")))
           one_model_service no_exc_str default_args _RAW_SAMPLE _JD_SAMPLE);
    reflexivity.
Defined.

(** X14.  When the value extracted is true in Python but is not a string
    (a list of content parts, a number), [main] does not return an exit
    code: writing the value raises a [TypeError]. *)
Theorem main_non_text_content (environ : list (string * string))
    (open_read : string -> outcome string) (create : request -> outcome pyval)
    (exc_str : pyexc -> string) (args : namespace) (raw jd prompt : string) (v : pyval) :
  given (configured_api_key environ args) = true ->
  read_file_or_default open_read exc_str (raw_file args) _RAW_SAMPLE = Return raw ->
  read_file_or_default open_read exc_str (jd_file args) _JD_SAMPLE = Return jd ->
  build_prompt raw jd (name args) = Return prompt ->
  call_openai_chat create prompt (model args) 0%Q (max_tokens args) = Return v ->
  truthy v = true ->
  is_text v = false ->
  main environ open_read create exc_str args =
  Raise (PyExc TypeError
           [PyStr ("write() argument must be str, not " ++ type_name v)] None).
Proof.
  intros Hk Hr Hj Hp Hc Ht Hs.
  rewrite (main_after_prompt _ _ _ _ _ _ _ _ Hk Hr Hj Hp), Hc, Ht.
  destruct v; try discriminate Hs; reflexivity.
Qed.

Lemma main_non_text_content_witness :
  main [("OPENAI_API_KEY", "sk-test")] no_file
    (fun _ => Return (mapping_response (PyList [PyStr "part"]))) no_exc_str default_args =
  Raise (PyExc TypeError [PyStr "write() argument must be str, not list"] None).
Proof.
  refine (main_non_text_content [("OPENAI_API_KEY", "sk-test")] no_file
            (fun _ => Return (mapping_response (PyList [PyStr "part"]))) no_exc_str
            default_args _RAW_SAMPLE _JD_SAMPLE _ (PyList [PyStr "part"])
            eq_refl eq_refl eq_refl (build_prompt_composed _ _ _)
            eq_refl eq_refl eq_refl).
Defined.



(** X16.  Without input files on the command line (no path, or an empty
    one) [main] never consults the file system: it runs on the two built-in
    samples, the same under any two file systems. *)
Theorem main_without_files (environ : list (string * string))
    (open_read1 open_read2 : string -> outcome string)
    (create : request -> outcome pyval)
    (exc_str1 exc_str2 : pyexc -> string) (args : namespace) :
  given (raw_file args) = false ->
  given (jd_file args) = false ->
  main environ open_read1 create exc_str1 args =
  main environ open_read2 create exc_str2 args /\
  main environ open_read1 create exc_str1 args =
  if negb (given (configured_api_key environ args)) then Return ("", 2%Z)
  else
    match call_openai_chat create
            (compose_prompt _RAW_SAMPLE _JD_SAMPLE (name args) (user_name_lower (name args)))
            (model args) 0%Q (max_tokens args) with
    | Raise _ => Return ("", 3%Z)
    | Return assistant_text =>
        out <- stdout_write (if truthy assistant_text then assistant_text else PyStr "") ;;
        Return (out, 0%Z)
    | Unmodelled => Unmodelled
    end.
Proof.
  intros Hr Hj.
  assert (Hs : escape_braces _RAW_SAMPLE = _RAW_SAMPLE /\
               escape_braces _JD_SAMPLE = _JD_SAMPLE)
    by (split; vm_compute; reflexivity).
  destruct Hs as [Hs1 Hs2].
  assert (H : forall open_read exc_str,
             main environ open_read create exc_str args =
             if negb (given (configured_api_key environ args)) then Return ("", 2%Z)
             else
               match call_openai_chat create
                       (compose_prompt _RAW_SAMPLE _JD_SAMPLE (name args)
                          (user_name_lower (name args)))
                       (model args) 0%Q (max_tokens args) with
               | Raise _ => Return ("", 3%Z)
               | Return assistant_text =>
                   out <- stdout_write
                            (if truthy assistant_text then assistant_text else PyStr "") ;;
                   Return (out, 0%Z)
               | Unmodelled => Unmodelled
               end).
  { intros open_read exc_str. unfold main.
    destruct (negb (given (configured_api_key environ args))); [reflexivity|].
    rewrite (read_file_or_default_absent _ _ _ _ Hr), bind_Return.
    rewrite (read_file_or_default_absent _ _ _ _ Hj), bind_Return.
    rewrite build_prompt_composed, bind_Return, Hs1, Hs2. reflexivity. }
  split; [now rewrite !H | apply H].
Qed.

Lemma main_without_files_witness :
  main [("OPENAI_API_KEY", "sk-test")] no_file
    (fun _ => Return (mapping_response (PyStr "RESUME TEXT"))) no_exc_str default_args =
  main [("OPENAI_API_KEY", "sk-test")] (fun _ => Return "file text")
    (fun _ => Return (mapping_response (PyStr "RESUME TEXT"))) (fun _ => "oops")
    default_args.
Proof.
  apply (proj1 (main_without_files [("OPENAI_API_KEY", "sk-test")] no_file
                  (fun _ => Return "file text")
                  (fun _ => Return (mapping_response (PyStr "RESUME TEXT")))
                  no_exc_str (fun _ => "oops") default_args eq_refl eq_refl)).
Defined.
